(** * dlogcsv: conversion of a parsed data log to a CSV table

    A shallow embedding of [dlogcsv.py] and of the parts of the Python
    runtime it relies on (true division, [str] of numbers and lists,
    [decimal.Decimal]), followed by the properties of the metadata
    presenter [format_header_info] and of the table assembly in [main]. *)

From Stdlib Require Import ZArith NArith Bool String Ascii List Floats DecimalString Lia.
Import ListNotations.

#[local] Set Warnings "-inexact-float".
#[local] Open Scope list_scope.
#[local] Open Scope string_scope.
#[local] Open Scope Z_scope.

(** ** The Python runtime *)

Module Py.

(** Exceptions the modelled code can raise. *)
Inductive exn : Set :=
| ZeroDivisionError
| OverflowError
| DecimalOverflow.

Inductive result (A : Type) : Type :=
| Ok (a : A)
| Raise (e : exn).
Arguments Ok {A} a.
Arguments Raise {A} e.

Definition bind {A B : Type} (r : result A) (k : A -> result B) : result B :=
  match r with
  | Ok a => k a
  | Raise e => Raise e
  end.

Definition is_ok {A : Type} (r : result A) : Prop := exists a, r = Ok a.

(** Python numbers: unbounded [int] and binary64 [float]. *)
Inductive pynum : Set :=
| PyInt (z : Z)
| PyFloat (f : float).

(** [str] of an [int]. *)
Definition str_int (z : Z) : string := NilZero.string_of_int (Z.to_int z).

Fixpoint zeros (n : nat) : string :=
  match n with
  | O => ""
  | S n' => String "0" (zeros n')
  end.

Definition slen (s : string) : Z := Z.of_nat (String.length s).

(** *** int to float, and true division *)

(** The least magnitude that rounds (to nearest, ties to even) out of the
    binary64 range: halfway between the largest float and [2^1024]. *)
Definition float_overflow_bound : Z := 2 ^ 1024 - 2 ^ 970.

(** [float(z)]: the nearest binary64 value, [OverflowError] beyond the range. *)
Definition float_of_int (z : Z) : result float :=
  if float_overflow_bound <=? Z.abs z then Raise OverflowError
  else Ok (SF2Prim (binary_normalize 53 1024 z 0 false)).

(** [a / b] on two floats. *)
Definition float_div (a b : float) : result float :=
  if (b =? 0)%float then Raise ZeroDivisionError else Ok (a / b)%float.

(** [a / b] on two ints: the correctly rounded quotient.  The quotient is
    taken with at least 62 significant bits and a sticky bit, then rounded
    once. *)
Definition int_true_divide (a b : Z) : result float :=
  if b =? 0 then Raise ZeroDivisionError
  else
    let neg := xorb (a <? 0) (b <? 0) in
    if a =? 0 then Ok (if neg then (-0)%float else 0%float)
    else if float_overflow_bound * Z.abs b <=? Z.abs a then Raise OverflowError
    else
      let s := Z.max 0 (64 + Z.log2 (Z.abs b) - Z.log2 (Z.abs a)) in
      let n := Z.abs a * 2 ^ s in
      let q := n / Z.abs b in
      let sticky := if n mod Z.abs b =? 0 then 0 else 1 in
      let m := 2 * q + sticky in
      Ok (SF2Prim (binary_normalize 53 1024 (if neg then - m else m) (- s - 1) neg)).

(** The [/] operator on numbers. *)
Definition truediv (a b : pynum) : result float :=
  match a, b with
  | PyInt x, PyInt y => int_true_divide x y
  | PyInt x, PyFloat g => bind (float_of_int x) (fun f => float_div f g)
  | PyFloat f, PyInt y => bind (float_of_int y) (fun g => float_div f g)
  | PyFloat f, PyFloat g => float_div f g
  end.

(** [x == k] for an int [k] that a float holds exactly, as used to look a
    number up among int keys of a dict. *)
Definition eq_int (x : pynum) (k : Z) : bool :=
  match x with
  | PyInt z => z =? k
  | PyFloat f => (f =? SF2Prim (binary_normalize 53 1024 k 0 false))%float
  end.

(** [0 < x]. *)
Definition is_positive (x : pynum) : bool :=
  match x with
  | PyInt z => 0 <? z
  | PyFloat f => (0 <? f)%float
  end.

(** [x == 0]: the int 0 and the floats 0.0 and -0.0. *)
Definition is_zero (x : pynum) : bool :=
  match x with
  | PyInt z => z =? 0
  | PyFloat f => (f =? 0)%float
  end.

(** *** repr of a float: the shortest digits that read back as the float *)

Section Shortest.
(** The float is [m * 2^e], with [m] and [e] as [Prim2SF] gives them. *)
Variables (m : positive) (e : Z).

(** Floats whose mantissa is even take the ends of their rounding
    interval; at a power of two the interval is narrower below. *)
Definition closed : bool := Z.even (Zpos m).
Definition boundary : bool := (Zpos m =? 2 ^ 52) && (-1074 <? e).

(** The float [v] and the ends [lo], [hi] of its rounding interval, in
    units of [2^E]. *)
Definition E : Z := e - 2.
Definition v : Z := 4 * Zpos m.
Definition lo : Z := v - (if boundary then 1 else 2).
Definition hi : Z := v + 2.

(** [x * 2^E / 10^k] as a fraction of two positive integers. *)
Definition scaled_num (x k : Z) : Z := x * 2 ^ Z.max E 0 * 10 ^ Z.max (- k) 0.
Definition scaled_den (k : Z) : Z := 2 ^ Z.max (- E) 0 * 10 ^ Z.max k 0.

Definition cdiv (a b : Z) : Z := - ((- a) / b).

(** Least and greatest multiples of [10^k] that round to the float. *)
Definition lowest (k : Z) : Z :=
  if closed then cdiv (scaled_num lo k) (scaled_den k)
  else scaled_num lo k / scaled_den k + 1.
Definition highest (k : Z) : Z :=
  if closed then scaled_num hi k / scaled_den k
  else cdiv (scaled_num hi k) (scaled_den k) - 1.

Fixpoint find_exp (fuel : nat) (k : Z) : Z :=
  match fuel with
  | O => k
  | S fuel' => if lowest k <=? highest k then k else find_exp fuel' (k - 1)
  end.

(** An exponent [k] with [10^k] above the float. *)
Definition start_exp : Z :=
  let L := Z.log2 (Zpos m) + e + 2 in
  L * (if 0 <=? L then 30103 else 30102) / 100000 + 1.

(** The multiple of [10^k] nearest to the float (ties to the even digit),
    moved inside the interval if it falls outside. *)
Definition nearest (k : Z) : Z :=
  let n := scaled_num v k in
  let d := scaled_den k in
  let q := n / d in
  let r := n mod d in
  let c := if 2 * r <? d then q
           else if d <? 2 * r then q + 1
           else if Z.even q then q else q + 1 in
  if c <? lowest k then c + 1
  else if highest k <? c then c - 1
  else c.

(** Shortest digits [D] and exponent [k]: the float reads back from
    [D * 10^k]. *)
Definition shortest : Z * Z :=
  let k := find_exp 400 start_exp in (nearest k, k).
End Shortest.

Definition pad2 (s : string) : string :=
  if (String.length s <? 2)%nat then "0" ++ s else s.

(** Layout of [repr]: exponent form when the decimal point falls outside
    [-4 < decpt <= 16], positional form (with at least [.0]) otherwise. *)
Definition format_repr (D k : Z) : string :=
  let ds := str_int D in
  let n := slen ds in
  let decpt := n + k in
  if (decpt <=? -4) || (16 <? decpt) then
    let ex := decpt - 1 in
    substring 0 1 ds
    ++ (if n =? 1 then "" else "." ++ substring 1 (String.length ds - 1)%nat ds)
    ++ "e" ++ (if ex <? 0 then "-" else "+") ++ pad2 (str_int (Z.abs ex))
  else if decpt <=? 0 then "0." ++ zeros (Z.to_nat (- decpt)) ++ ds
  else if n <=? decpt then ds ++ zeros (Z.to_nat (decpt - n)) ++ ".0"
  else substring 0 (Z.to_nat decpt) ds ++ "."
       ++ substring (Z.to_nat decpt) (Z.to_nat (n - decpt)) ds.

Definition sign_str (s : bool) : string := if s then "-" else "".

Definition float_repr (f : float) : string :=
  match Prim2SF f with
  | S754_zero s => sign_str s ++ "0.0"
  | S754_infinity s => sign_str s ++ "inf"
  | S754_nan => "nan"
  | S754_finite s m e =>
      let '(D, k) := shortest m e in sign_str s ++ format_repr D k
  end.

(** [str] of a number. *)
Definition str_num (x : pynum) : string :=
  match x with
  | PyInt z => str_int z
  | PyFloat f => float_repr f
  end.

(** [str] of a list of numbers: the [repr] of the items between brackets. *)
Definition str_list (l : list pynum) : string :=
  "[" ++ String.concat ", " (map str_num l) ++ "]".

(** [l[:n]]: a negative [n] counts from the end. *)
Definition slice_to {A : Type} (l : list A) (n : Z) : list A :=
  if n <? 0 then firstn (Z.to_nat (Z.of_nat (length l) + n)) l
  else firstn (Z.to_nat n) l.

(** *** Computations with state and exceptions

    A computation reads and updates a state [S] and either returns or
    raises; the state survives a raise, as side effects made before an
    exception do. *)
Definition M (S A : Type) : Type := S -> result A * S.

Definition ret {S A : Type} (a : A) : M S A := fun s => (Ok a, s).
Definition raise {S A : Type} (e : exn) : M S A := fun s => (Raise e, s).
Definition mbind {S A B : Type} (c : M S A) (k : A -> M S B) : M S B :=
  fun s => match c s with
           | (Ok a, s') => k a s'
           | (Raise e, s') => (Raise e, s')
           end.
Definition modify {S : Type} (f : S -> S) : M S unit := fun s => (Ok tt, f s).
Definition lift {S A : Type} (r : result A) : M S A := fun s => (r, s).

(** A computation whose result does not depend on the state it starts
    from, and one that returns from every state. *)
Definition oblivious {S A : Type} (c : M S A) : Prop :=
  forall s1 s2, fst (c s1) = fst (c s2).

Definition returns {S A : Type} (c : M S A) : Prop :=
  forall s, is_ok (fst (c s)).

(** A computation that raises nothing but [e0]. *)
Definition raises_only {S A : Type} (e0 : exn) (c : M S A) : Prop :=
  forall s e, fst (c s) = Raise e -> e = e0.

(** [f] applied to what a computation returns. *)
Definition result_map {A B : Type} (f : A -> B) (r : result A) : result B :=
  match r with
  | Ok a => Ok (f a)
  | Raise e => Raise e
  end.

End Py.

Declare Scope py_scope.
Delimit Scope py_scope with py.
Notation "x <- c ;; k" := (Py.mbind c (fun x => k))
  (at level 61, c at next level, right associativity) : py_scope.
Notation "c ;;; k" := (Py.mbind c (fun _ => k))
  (at level 61, right associativity) : py_scope.

(** ** decimal.Decimal under the default context *)

Module Decimal.
Import Py.
#[local] Open Scope py_scope.

Inductive signal : Set :=
| Clamped | Inexact | Rounded | Subnormal | Underflow | Overflow | FloatOperation.

Definition signal_eqb (a b : signal) : bool :=
  match a, b with
  | Clamped, Clamped | Inexact, Inexact | Rounded, Rounded
  | Subnormal, Subnormal | Underflow, Underflow | Overflow, Overflow
  | FloatOperation, FloatOperation => true
  | _, _ => false
  end.

(** The mutable part of the thread's context: the sticky flags. *)
Record context : Type := { flags : signal -> bool }.

Definition fresh_context : context := {| flags := fun _ => false |}.

(** The default context: 28 digits, ROUND_HALF_EVEN, exponents within
    [Emin, Emax], no clamping, capital [E]. *)
Definition prec : Z := 28.
Definition Emax : Z := 999999.
Definition Emin : Z := -999999.
Definition Etiny : Z := Emin - prec + 1.
Definition Etop : Z := Emax - prec + 1.

Definition set_flag (sg : signal) (c : context) : context :=
  {| flags := fun x => if signal_eqb sg x then true else flags c x |}.

(** An untrapped signal only sets its flag. *)
Definition raise_error (sg : signal) : M context unit := modify (set_flag sg).

(** Overflow is trapped: the flags Overflow, Inexact and Rounded are
    recorded and the exception is raised. *)
Definition overflow {A : Type} : M context A :=
  modify (fun c => set_flag Rounded (set_flag Inexact (set_flag Overflow c))) ;;;
  raise DecimalOverflow.

Definition when (b : bool) (c : M context unit) : M context unit :=
  if b then c else ret tt.

(** A Decimal: sign, coefficient and exponent, or a special value.  The
    coefficient is the natural number the digit string [_int] spells. *)
Inductive decimal : Set :=
| Finite (sign : bool) (coeff : N) (exp : Z)
| Infinity (sign : bool)
| NaN.

Fixpoint count_digits (fuel : nat) (c : N) : Z :=
  match fuel with
  | O => 1
  | S fuel' => if (c <? 10)%N then 1 else 1 + count_digits fuel' (c / 10)%N
  end.

(** [len(self._int)]: the number of decimal digits, 1 for zero. *)
Definition ndigits (c : N) : Z := count_digits (N.to_nat (N.log2 c)) c.

Definition pow10 (k : Z) : N := (10 ^ Z.to_N k)%N.

(** [Decimal(z)] for an int. *)
Definition from_int (z : Z) : decimal := Finite (z <? 0) (Z.abs_N z) 0.

(** Lowest terms of [m / 2^k]: [float.as_integer_ratio]. *)
Fixpoint reduce_ratio (fuel : nat) (m : N) (k : Z) : N * Z :=
  match fuel with
  | O => (m, k)
  | S fuel' =>
      if (0 <? k) && N.even m then reduce_ratio fuel' (m / 2)%N (k - 1) else (m, k)
  end.

(** [Decimal.from_float]: the exact value of the float. *)
Definition from_float (f : float) : decimal :=
  match Prim2SF f with
  | S754_zero s => Finite s 0 0
  | S754_infinity s => Infinity s
  | S754_nan => NaN
  | S754_finite s m e =>
      if 0 <=? e then Finite s (Npos m * 2 ^ Z.to_N e)%N 0
      else
        let '(n, k) := reduce_ratio (Z.to_nat (- e)) (Npos m) (- e) in
        Finite s (n * 5 ^ Z.to_N k)%N (- k)
  end.

(** [Decimal(value)]: a float operand sets the FloatOperation flag. *)
Definition Decimal (x : pynum) : M context decimal :=
  match x with
  | PyInt z => ret (from_int z)
  | PyFloat f => raise_error FloatOperation ;;; ret (from_float f)
  end.

(** [_round_half_even]: 1 to round up, 0 when exact, -1 to round down, for
    quotient [q] and remainder [r] of the coefficient by [10^drop], of which
    [keep] digits stay. *)
Definition round_half_even (q r : N) (drop keep : Z) : Z :=
  let half := (5 * pow10 (drop - 1))%N in
  if (r =? half)%N && ((keep =? 0) || N.even q) then -1
  else if (half <=? r)%N then 1
  else if (r =? 0)%N then 0
  else -1.

(** [Decimal._fix]: round to the context's precision and exponent range. *)
Definition fix_ (d : decimal) : M context decimal :=
  match d with
  | Infinity _ | NaN => ret d
  | Finite s c e =>
      if (c =? 0)%N then
        let new_exp := Z.min (Z.max e Etiny) Emax in
        if negb (new_exp =? e) then raise_error Clamped ;;; ret (Finite s 0 new_exp)
        else ret d
      else
        let n := ndigits c in
        let exp_min0 := n + e - prec in
        if Etop <? exp_min0 then overflow
        else
          let subnormal := exp_min0 <? Etiny in
          let exp_min := if subnormal then Etiny else exp_min0 in
          if e <? exp_min then
            let digits0 := n + e - exp_min in
            let '(c1, n1, digits) :=
              if digits0 <? 0 then (1%N, 1, 0) else (c, n, digits0) in
            let drop := n1 - digits in
            let q := (c1 / pow10 drop)%N in
            let changed := round_half_even q (c1 mod pow10 drop)%N drop digits in
            let '(coeff, exp_min') :=
              if 0 <? changed then
                if prec <? ndigits (q + 1) then (((q + 1) / 10)%N, exp_min + 1)
                else ((q + 1)%N, exp_min)
              else (q, exp_min) in
            ans <- (if Etop <? exp_min' then overflow
                    else ret (Finite s coeff exp_min')) ;;
            when (negb (changed =? 0) && subnormal) (raise_error Underflow) ;;;
            when subnormal (raise_error Subnormal) ;;;
            when (negb (changed =? 0)) (raise_error Inexact) ;;;
            raise_error Rounded ;;;
            when (match ans with Finite _ 0%N _ => true | _ => false end)
                 (raise_error Clamped) ;;;
            ret ans
          else
            when subnormal (raise_error Subnormal) ;;; ret d
  end.

(** The loop of [normalize]: drop trailing zeros of the coefficient while
    the exponent stays below [Emax]. *)
Fixpoint strip_zeros (fuel : nat) (c : N) (e : Z) : N * Z :=
  match fuel with
  | O => (c, e)
  | S fuel' =>
      if (c mod 10 =? 0)%N && (e <? Emax) then strip_zeros fuel' (c / 10)%N (e + 1)
      else (c, e)
  end.

(** [Decimal.normalize] *)
Definition normalize (d : decimal) : M context decimal :=
  match d with
  | NaN => ret NaN
  | _ =>
      dup <- fix_ d ;;
      match dup with
      | Finite s c e =>
          if (c =? 0)%N then ret (Finite s 0 0)
          else let '(c', e') := strip_zeros (S (N.to_nat (N.log2 c))) c e in
               ret (Finite s c' e')
      | _ => ret dup
      end
  end.

(** ["%+d" % z] *)
Definition signed_str (z : Z) : string :=
  if z <? 0 then "-" ++ str_int (Z.abs z) else "+" ++ str_int z.

(** Engineering notation: how many digits of a coefficient of [len] digits
    go before the decimal point. *)
Definition eng_dotplace (c : N) (e len : Z) : Z :=
  let leftdigits := e + len in
  if (e <=? 0) && (-6 <? leftdigits) then leftdigits
  else if (c =? 0)%N then (leftdigits + 1) mod 3 - 1
  else (leftdigits - 1) mod 3 + 1.

(** The exponent written after [E]; none is written when it is 0. *)
Definition eng_exponent (c : N) (e len : Z) : Z :=
  e + len - eng_dotplace c e len.

(** [Decimal.to_eng_string]: [__str__] with [eng=True]. *)
Definition to_eng_string (d : decimal) : string :=
  match d with
  | Infinity s => sign_str s ++ "Infinity"
  | NaN => "NaN"
  | Finite s c e =>
      let ds := str_int (Z.of_N c) in
      let len := slen ds in
      let dotplace := eng_dotplace c e len in
      let body :=
        if dotplace <=? 0 then "0." ++ zeros (Z.to_nat (- dotplace)) ++ ds
        else if len <=? dotplace then ds ++ zeros (Z.to_nat (dotplace - len))
        else substring 0 (Z.to_nat dotplace) ds ++ "."
             ++ substring (Z.to_nat dotplace) (Z.to_nat (len - dotplace)) ds in
      let expo :=
        if eng_exponent c e len =? 0 then ""
        else "E" ++ signed_str (eng_exponent c e len) in
      sign_str s ++ body ++ expo
  end.

(** *** Vocabulary of the statements about decimals *)

(** The value [Decimal(x)] returns. *)
Definition exact (x : pynum) : decimal :=
  match x with
  | PyInt z => from_int z
  | PyFloat f => from_float f
  end.

(** [Decimal(x).normalize().to_eng_string()] *)
Definition eng_string (x : pynum) : M context string :=
  d <- Decimal x ;; n <- normalize d ;; ret (to_eng_string n).

(** A decimal without trailing zeros: zero is [0E0]; otherwise the last
    digit of the coefficient is not 0, unless the exponent has reached
    [Emax], where [normalize] stops. *)
Definition normalized (d : decimal) : Prop :=
  match d with
  | Finite _ c e =>
      (c = 0%N /\ e = 0) \/ (c <> 0%N /\ ((c mod 10)%N <> 0%N \/ Emax <= e))
  | _ => True
  end.

(** The exponent [to_eng_string] writes for [d]; 0 stands for none. *)
Definition shown_exponent (d : decimal) : Z :=
  match d with
  | Finite _ c e => eng_exponent c e (slen (str_int (Z.of_N c)))
  | _ => 0
  end.

(** A nonzero decimal of at most [prec] digits whose exponent is that of an
    int or of a float: it needs no rounding. *)
Definition short (d : decimal) : Prop :=
  match d with
  | Finite _ c e => c <> 0%N /\ ndigits c <= prec /\ Etiny <= e <= 0
  | _ => False
  end.

(** [d'] spells the number [d] with fewer trailing zeros. *)
Definition same_value (d d' : decimal) : Prop :=
  match d, d' with
  | Finite s c e, Finite s' c' e' =>
      s = s' /\ e <= e' /\ c = (c' * 10 ^ Z.to_N (e' - e))%N
  | _, _ => False
  end.

(** A decimal whose leading digit stays below [10^Emax]: rounding it to the
    context cannot overflow. *)
Definition fits (d : decimal) : Prop :=
  match d with
  | Finite _ c e => c = 0%N \/ ndigits c + e <= Emax
  | _ => True
  end.

(** Every flag set in [c1] is set in [c2]. *)
Definition keeps_flags (c1 c2 : context) : Prop :=
  forall sg, flags c1 sg = true -> flags c2 sg = true.

(** A computation that may set flags and clears none. *)
Definition sticky {A : Type} (c : M context A) : Prop :=
  forall s, keeps_flags s (snd (c s)).

End Decimal.

(** ** dlogcsv.py *)

Module Dlogcsv.
Import Py.
#[local] Open Scope py_scope.

(** *** The parsed log

    The classes [Dlog], [Dlog.Body.Header] and the sample type come from
    the parser module [dlog], which [dlogcsv.py] imports; their fields are
    taken from the data model. *)

(** Modelled from the spec: the enumeration classes of the parser module
    [dlog].  An enumerated tag has its [name] and what [str] shows for it. *)
Record enum_member : Set := { name : string; enum_str : string }.

(** Values found in the attributes of a header and in the cells of a row. *)
Inductive pyval : Set :=
| VNum (x : pynum)
| VStr (s : string)
| VEnum (e : enum_member)
| VList (l : list pynum)
| VObj (shown : string).

(** [str(v)], which is what an f-string field without a format shows. *)
Definition py_str (v : pyval) : string :=
  match v with
  | VNum x => str_num x
  | VStr s => s
  | VEnum e => enum_str e
  | VList l => str_list l
  | VObj shown => shown
  end.

(** Modelled from the spec: the class [Dlog.Body.Header] of the parser
    module [dlog], with the fields of the data model; the numbers are ints
    or floats.  [vars] is the instance dictionary, in insertion order, as
    [vars(header)] returns it; it is taken as the parser leaves it. *)
Record Header : Set := {
  dlog_format : enum_member;
  stop_reason : enum_member;
  num_samples : Z;
  voltage_scale : pynum;
  sample_rate : pynum;
  delay : pynum;
  num_channels : Z;
  channel_map : list Z;
  vars : list (string * pyval)
}.

(** Modelled from the spec: the sample class of the parser module [dlog],
    one ordered sequence of numeric channel values. *)
Record Sample : Set := { channel : list pynum }.

(** Modelled from the spec: the class [Dlog] of the parser module, reduced
    to [dlog.body.header] and [dlog.body.data.samples]. *)
Record Dlog : Set := { header : Header; samples : list Sample }.

(** *** format_header_info *)

Definition voltage_scale_strings : list (Z * string) := [(1000, "mV"); (1, "V")].

(** [d[x]] when [x in d], for a dict with int keys. *)
Definition dict_get (d : list (Z * string)) (x : pynum) : option string :=
  option_map snd (find (fun kv => eq_int x (fst kv)) d).

(** Lines 19-22: the unit to show for the voltage. *)
Definition voltage_units (h : Header) : result pyval :=
  bind (truediv (PyInt 1) (voltage_scale h)) (fun reciprocal =>
  Ok (match dict_get voltage_scale_strings (voltage_scale h) with
      | Some unit_string => VStr unit_string
      | None => VNum (PyFloat reciprocal)
      end)).

(** [header.channel_map[:header.num_channels]] *)
Definition active_channels (h : Header) : list Z :=
  slice_to (channel_map h) (num_channels h).

(** [Decimal(x).normalize().to_eng_string()] is spread over lines 24-25 and
    31-32: both conversions come before both normalizations. *)
Definition format_header_info (h : Header) : M Decimal.context (list string) :=
  voltage_scale <- lift (voltage_units h) ;;
  sample_rate <- Decimal.Decimal (sample_rate h) ;;
  delay <- Decimal.Decimal (delay h) ;;
  sample_rate_n <- Decimal.normalize sample_rate ;;
  delay_n <- Decimal.normalize delay ;;
  ret [ "log format: " ++ name (dlog_format h);
        "stop reason: " ++ name (stop_reason h);
        "number of samples: " ++ str_int (num_samples h);
        "voltage units: " ++ py_str voltage_scale;
        "sample rate: " ++ Decimal.to_eng_string sample_rate_n ++ " Sa/s";
        "delay: " ++ Decimal.to_eng_string delay_n ++ " s";
        "number of channels: " ++ str_int (num_channels h);
        "channel map: " ++ str_list (map PyInt (active_channels h)) ].

(** *** The table *)

Definition row : Set := list pyval.

(** What the process has done so far: the Decimal context, the text sent to
    [sys.stderr], and the rows handed to the CSV writer on [sys.stdout]. *)
Record world : Type := {
  dctx : Decimal.context;
  stderr : string;
  csv_out : list row
}.

Definition initial_world : world :=
  {| dctx := Decimal.fresh_context; stderr := ""; csv_out := [] |}.

Definition with_dctx {A : Type} (c : M Decimal.context A) : M world A :=
  fun w => let '(r, d) := c (dctx w) in
           (r, {| dctx := d; stderr := stderr w; csv_out := csv_out w |}).

Definition newline : string := String (ascii_of_nat 10) "".

(** [print(text, file=sys.stderr)] *)
Definition print_stderr (text : string) : M world unit :=
  modify (fun w => {| dctx := dctx w;
                      stderr := stderr w ++ text ++ newline;
                      csv_out := csv_out w |}).

(** [csv_writer.writerow(r)] *)
Definition writerow (r : row) : M world unit :=
  modify (fun w => {| dctx := dctx w;
                      stderr := stderr w;
                      csv_out := (csv_out w ++ [r])%list |}).

(** [csv_writer.writerows(data)] pulls the rows one at a time from a
    generator; a row that fails to be produced ends the loop with its
    exception, after the rows before it have been written. *)
Fixpoint writerows (data : list (result row)) : M world unit :=
  match data with
  | [] => ret tt
  | next :: rest => r <- lift next ;; writerow r ;;; writerows rest
  end.

Definition write_csv (data : list (result row))
    (log_header column_header : option row) : M world unit :=
  (match log_header with
   | Some r => writerow r
   | None => ret tt
   end) ;;;
  (match column_header with
   | Some r => writerow r
   | None => ret tt
   end) ;;;
  writerows data.

(** [enumerate(l, start)] *)
Fixpoint enumerate_from {A : Type} (start : nat) (l : list A) : list (nat * A) :=
  match l with
  | [] => []
  | x :: rest => (start, x) :: enumerate_from (S start) rest
  end.

Definition enumerate {A : Type} (l : list A) : list (nat * A) := enumerate_from 0 l.

(** Lines 74-75: one element of the generator, [[i/header.sample_rate,
    *s.channel]]. *)
Definition timestamped_row (h : Header) (i : nat) (s : Sample) : result row :=
  bind (truediv (PyInt (Z.of_nat i)) (sample_rate h)) (fun t =>
  Ok (VNum (PyFloat t) :: map VNum (channel s))).

Definition timestamped_data (h : Header) (ss : list Sample) : list (result row) :=
  map (fun '(i, s) => timestamped_row h i s) (enumerate ss).

(** Lines 80-81: the public attributes as [field=value] strings. *)
Definition is_public (f : string) : bool := negb (String.prefix "_" f).

Definition log_header (h : Header) : row :=
  map (fun '(f, v) => VStr (f ++ "=" ++ py_str v))
      (filter (fun '(f, _) => is_public f) (vars h)).

(** Lines 83-84. *)
Definition column_header (h : Header) : row :=
  VStr "Time" :: map (fun c => VStr ("Channel " ++ str_int c)) (active_channels h).

Record Args : Set := {
  quiet : bool;
  no_csv_log_header : bool;
  no_csv_column_header : bool
}.

(** Lines 70-72 of [main]: the summary on stderr. *)
Definition main_summary (args : Args) (h : Header) : M world unit :=
  if negb (quiet args) then
    info <- with_dctx (format_header_info h) ;;
    print_stderr (String.concat newline ("Header Information" :: info))
  else ret tt.

(** Lines 74-86 of [main]: the table on stdout. *)
Definition main_table (args : Args) (h : Header) (ss : list Sample) : M world unit :=
  let timestamped := timestamped_data h ss in
  let log_header_row :=
    if negb (no_csv_log_header args) then Some (log_header h) else None in
  let column_header_row :=
    if negb (no_csv_column_header args) then Some (column_header h) else None in
  write_csv timestamped log_header_row column_header_row.

Definition main (args : Args) (dlog : Dlog) : M world unit :=
  main_summary args (header dlog) ;;;
  main_table args (header dlog) (samples dlog).

(** *** Vocabulary of the statements *)

(** The rows a consumer receives from a generator before it raises, and how
    the consumption ends. *)
Fixpoint produced (data : list (result row)) : list row :=
  match data with
  | Ok r :: rest => r :: produced rest
  | _ => []
  end.

Fixpoint outcome (data : list (result row)) : result unit :=
  match data with
  | [] => Ok tt
  | Ok _ :: rest => outcome rest
  | Raise e :: _ => Raise e
  end.

(** A header row that is written only when [wanted]. *)
Definition optional_row (wanted : bool) (r : row) : list row :=
  if wanted then [r] else [].

(** The rows on stdout after the table part of [main] has run in a fresh
    process, whether or not it ended with an exception. *)
Definition table_rows (args : Args) (h : Header) (ss : list Sample) : list row :=
  csv_out (snd (main_table args h ss initial_world)).

(** The effects of [format_header_info] and the three values they give:
    the voltage unit and the two normalized decimals. *)
Definition presenter_values (h : Header)
  : M Decimal.context (pyval * Decimal.decimal * Decimal.decimal) :=
  voltage_scale <- lift (voltage_units h) ;;
  sample_rate <- Decimal.Decimal (sample_rate h) ;;
  delay <- Decimal.Decimal (delay h) ;;
  sample_rate_n <- Decimal.normalize sample_rate ;;
  delay_n <- Decimal.normalize delay ;;
  ret (voltage_scale, sample_rate_n, delay_n).

(** The eight strings, for a unit, a rate and a delay already rendered. *)
Definition info_list (h : Header) (unit_shown rate_shown delay_shown : string)
  : list string :=
  [ "log format: " ++ name (dlog_format h);
    "stop reason: " ++ name (stop_reason h);
    "number of samples: " ++ str_int (num_samples h);
    "voltage units: " ++ unit_shown;
    "sample rate: " ++ rate_shown ++ " Sa/s";
    "delay: " ++ delay_shown ++ " s";
    "number of channels: " ++ str_int (num_channels h);
    "channel map: " ++ str_list (map PyInt (active_channels h)) ].

(** A header the presenter accepts: a voltage scale above zero, and a rate
    and a delay whose decimal expansions stay within the context's range
    (every float does, and every int of fewer than 999998 bits). *)
Definition presentable (h : Header) : Prop :=
  is_positive (voltage_scale h) = true /\
  Decimal.fits (Decimal.exact (sample_rate h)) /\
  Decimal.fits (Decimal.exact (delay h)).

(** The public attributes of the header, in the order of its dictionary,
    and the string shown for one of them. *)
Definition public_vars (h : Header) : list (string * pyval) :=
  filter (fun '(f, _) => is_public f) (vars h).

Definition field_string (fv : string * pyval) : string :=
  fst fv ++ "=" ++ py_str (snd fv).

(** Whether character [c] occurs in [s]. *)
Fixpoint has_char (c : ascii) (s : string) : bool :=
  match s with
  | EmptyString => false
  | String a rest => Ascii.eqb a c || has_char c rest
  end.

(** Headers that differ from [h] in one field. *)
Definition with_num_channels (n : Z) (h : Header) : Header :=
  {| dlog_format := dlog_format h; stop_reason := stop_reason h;
     num_samples := num_samples h; voltage_scale := voltage_scale h;
     sample_rate := sample_rate h; delay := delay h;
     num_channels := n; channel_map := channel_map h; vars := vars h |}.

Definition with_voltage_scale (v : pynum) (h : Header) : Header :=
  {| dlog_format := dlog_format h; stop_reason := stop_reason h;
     num_samples := num_samples h; voltage_scale := v;
     sample_rate := sample_rate h; delay := delay h;
     num_channels := num_channels h; channel_map := channel_map h;
     vars := vars h |}.

Definition with_vars (d : list (string * pyval)) (h : Header) : Header :=
  {| dlog_format := dlog_format h; stop_reason := stop_reason h;
     num_samples := num_samples h; voltage_scale := voltage_scale h;
     sample_rate := sample_rate h; delay := delay h;
     num_channels := num_channels h; channel_map := channel_map h;
     vars := d |}.

Definition with_sample_rate (r : pynum) (h : Header) : Header :=
  {| dlog_format := dlog_format h; stop_reason := stop_reason h;
     num_samples := num_samples h; voltage_scale := voltage_scale h;
     sample_rate := r; delay := delay h;
     num_channels := num_channels h; channel_map := channel_map h;
     vars := vars h |}.

Definition with_delay (d : pynum) (h : Header) : Header :=
  {| dlog_format := dlog_format h; stop_reason := stop_reason h;
     num_samples := num_samples h; voltage_scale := voltage_scale h;
     sample_rate := sample_rate h; delay := d;
     num_channels := num_channels h; channel_map := channel_map h;
     vars := vars h |}.

(** The text [main] prints on stderr for a list of items: a banner line,
    then one line per item. *)
Definition summary_text (info : list string) : string :=
  String.concat newline ("Header Information" :: info) ++ newline.

(** [-x] for a number. *)
Definition py_neg (x : pynum) : pynum :=
  match x with
  | PyInt z => PyInt (- z)
  | PyFloat f => PyFloat (- f)%float
  end.

(** *** A sample log: 1 kSa/s, 2 ms delay, two active channels *)

Module Examples.

Definition openlogger : enum_member :=
  {| name := "openlogger"; enum_str := "DlogFormats.openlogger" |}.
Definition normal : enum_member :=
  {| name := "normal"; enum_str := "StopReasons.normal" |}.

Definition header_1k : Header :=
  {| dlog_format := openlogger; stop_reason := normal;
     num_samples := 2; voltage_scale := PyInt 1000;
     sample_rate := PyInt 1000; delay := PyFloat 0.002;
     num_channels := 2; channel_map := [0; 1];
     vars := [ ("_io", VObj "<kaitaistruct.KaitaiStream object>");
               ("dlog_format", VEnum openlogger);
               ("stop_reason", VEnum normal);
               ("num_samples", VNum (PyInt 2));
               ("voltage_scale", VNum (PyInt 1000));
               ("num_channels", VNum (PyInt 2));
               ("channel_map", VList [PyInt 0; PyInt 1]);
               ("_m_sample_rate", VNum (PyInt 1000)) ] |}.

(** The same log with the rate held as a float. *)
Definition header_1k_float : Header :=
  {| dlog_format := openlogger; stop_reason := normal;
     num_samples := 2; voltage_scale := PyFloat 1000;
     sample_rate := PyFloat 1000; delay := PyFloat 0.002;
     num_channels := 2; channel_map := [0; 1];
     vars := vars header_1k |}.

(** The same log with a voltage scale outside the table of units. *)
Definition header_500 : Header := with_voltage_scale (PyInt 500) header_1k.

(** The same log announcing five channels for a map of two. *)
Definition header_oversized : Header := with_num_channels 5 header_1k.

Definition samples_2 : list Sample :=
  [ {| channel := [PyFloat 0.5; PyFloat (-0.5)] |};
    {| channel := [PyInt 3; PyInt 4] |} ].

(** A sample with one value where the header announces two channels. *)
Definition short_sample : Sample := {| channel := [PyInt 7] |}.

Definition all_rows : Args :=
  {| quiet := true; no_csv_log_header := false; no_csv_column_header := false |}.

(** The default command line: summary on stderr, both header rows. *)
Definition default_args : Args :=
  {| quiet := false; no_csv_log_header := false; no_csv_column_header := false |}.

(** The sample log with a voltage scale of zero, and with a rate of zero. *)
Definition header_zero_scale : Header := with_voltage_scale (PyInt 0) header_1k.
Definition header_zero_rate : Header := with_sample_rate (PyFloat 0) header_1k.

(** The sample log with a delay of -2 ms. *)
Definition header_early : Header := with_delay (PyFloat (-0.002)) header_1k.

(** The sample log whose dictionary holds private attributes only. *)
Definition header_private : Header :=
  with_vars [ ("_io", VObj "<kaitaistruct.KaitaiStream object>");
              ("_m_sample_rate", VNum (PyInt 1000)) ] header_1k.

End Examples.

End Dlogcsv.

(** ** Properties of the runtime *)

Module PyFacts.
Import Py.

Lemma float_overflow_bound_pos : 0 < float_overflow_bound.
Proof. reflexivity. Qed.

(** A float above zero is not equal to zero. *)
Lemma float_pos_nonzero (f : float) :
  (0 <? f)%float = true -> (f =? 0)%float = false.
Proof.
  rewrite ltb_spec, eqb_spec.
  change (Prim2SF 0) with (S754_zero false).
  destruct (Prim2SF f) as [s | s | | s m e]; try destruct s; cbn; congruence.
Qed.

Lemma float_div_pos (f g : float) :
  (0 <? g)%float = true -> float_div f g = Ok (f / g)%float.
Proof.
  intros Hg. unfold float_div. now rewrite (float_pos_nonzero _ Hg).
Qed.

(** Dividing an int within the float range by a number above zero succeeds. *)
Lemma truediv_int_pos (z : Z) (b : pynum) :
  is_positive b = true ->
  Z.abs z < float_overflow_bound ->
  exists t, truediv (PyInt z) b = Ok t.
Proof.
  intros Hb Hz. destruct b as [y | g]; cbn in Hb |- *.
  - apply Z.ltb_lt in Hb. unfold int_true_divide.
    destruct (Z.eqb_spec y 0) as [-> | _]; [lia |].
    destruct (z =? 0); [eexists; reflexivity |].
    pose proof float_overflow_bound_pos as Hpos.
    destruct (Z.leb_spec (float_overflow_bound * Z.abs y) (Z.abs z)) as [Hle | _].
    + exfalso.
      assert (float_overflow_bound * 1 <= float_overflow_bound * Z.abs y)
        by (apply Z.mul_le_mono_nonneg_l; lia).
      lia.
    + eexists; reflexivity.
  - unfold float_of_int.
    destruct (Z.leb_spec float_overflow_bound (Z.abs z)) as [Hle | _]; [lia |].
    cbn. rewrite (float_div_pos _ _ Hb). eexists; reflexivity.
Qed.

(** What the interpreter prints for some floats and quotients. *)
Example float_repr_samples :
  map float_repr
      [0.1; 0.001; 1e-05; 1e+22; 1.5; 1000; 0.30000000000000004; 5e-324]%float
  = ["0.1"; "0.001"; "1e-05"; "1e+22"; "1.5"; "1000.0";
     "0.30000000000000004"; "5e-324"].
Proof. vm_compute. reflexivity. Qed.

Example truediv_samples :
  truediv (PyInt 1) (PyInt 3) = Ok 0.3333333333333333%float /\
  truediv (PyInt 7) (PyFloat 2) = Ok 3.5%float /\
  truediv (PyInt 1) (PyInt 1000) = Ok 0.001%float /\
  truediv (PyInt 1) (PyInt 0) = Raise ZeroDivisionError /\
  truediv (PyInt 1) (PyFloat 0) = Raise ZeroDivisionError /\
  truediv (PyInt (2 ^ 1024)) (PyFloat 1) = Raise OverflowError /\
  float_of_int (2 ^ 53 + 1) = Ok 9007199254740992%float.
Proof. repeat split; vm_compute; reflexivity. Qed.

Lemma slice_to_short {A : Type} (l : list A) (n : Z) :
  Z.of_nat (length l) <= n -> slice_to l n = l.
Proof.
  intros Hn. unfold slice_to.
  destruct (Z.ltb_spec n 0) as [Hneg | _]; [lia |].
  apply firstn_all2. lia.
Qed.

Lemma slice_to_length {A : Type} (l : list A) (n : Z) :
  0 <= n <= Z.of_nat (length l) -> length (slice_to l n) = Z.to_nat n.
Proof.
  intros Hn. unfold slice_to.
  destruct (Z.ltb_spec n 0) as [Hneg | _]; [lia |].
  rewrite length_firstn. lia.
Qed.

Lemma slice_to_nth {A : Type} (l : list A) (n : Z) (i : nat) :
  0 <= n -> Z.of_nat i < n -> nth_error (slice_to l n) i = nth_error l i.
Proof.
  intros Hn Hi. unfold slice_to.
  destruct (Z.ltb_spec n 0) as [Hneg | _]; [lia |].
  rewrite nth_error_firstn.
  destruct (Nat.ltb_spec i (Z.to_nat n)); [reflexivity | lia].
Qed.

End PyFacts.

(** ** The table: rows, headers and their order *)

Module Table.
Import Py Dlogcsv PyFacts.

Lemma nth_error_enumerate_from {A : Type} (l : list A) :
  forall start i,
    nth_error (enumerate_from start l) i
    = option_map (fun x => ((start + i)%nat, x)) (nth_error l i).
Proof.
  induction l as [| x l IH]; intros start i.
  - now destruct i.
  - destruct i as [| i]; cbn.
    + now rewrite Nat.add_0_r.
    + rewrite IH. now rewrite Nat.add_succ_r.
Qed.

Lemma length_enumerate_from {A : Type} (l : list A) :
  forall start, length (enumerate_from start l) = length l.
Proof. induction l; intros; cbn; auto. Qed.

(** Row [i] of the generator is computed from sample [i] and its index. *)
Lemma nth_error_timestamped_data (h : Header) (ss : list Sample) (i : nat) :
  nth_error (timestamped_data h ss) i
  = option_map (timestamped_row h i) (nth_error ss i).
Proof.
  unfold timestamped_data, enumerate.
  rewrite nth_error_map, nth_error_enumerate_from.
  now destruct (nth_error ss i).
Qed.

Lemma length_timestamped_data (h : Header) (ss : list Sample) :
  length (timestamped_data h ss) = length ss.
Proof.
  unfold timestamped_data, enumerate.
  now rewrite length_map, length_enumerate_from.
Qed.

Lemma produced_all_ok (data : list (result row)) :
  Forall is_ok data -> data = map Ok (produced data) /\ outcome data = Ok tt.
Proof.
  induction 1 as [| r data [a ->] _ [IHd IHo]]; cbn.
  - now split.
  - split; [now f_equal | assumption].
Qed.

Lemma timestamped_row_time (h : Header) (i : nat) (s : Sample) (t : float) :
  truediv (PyInt (Z.of_nat i)) (sample_rate h) = Ok t ->
  timestamped_row h i s = Ok (VNum (PyFloat t) :: map VNum (channel s)).
Proof. intros Ht. unfold timestamped_row. now rewrite Ht. Qed.

Lemma timestamped_row_raise (h : Header) (i : nat) (s : Sample) (e : exn) :
  timestamped_row h i s = Raise e
  <-> truediv (PyInt (Z.of_nat i)) (sample_rate h) = Raise e.
Proof.
  unfold timestamped_row.
  destruct (truediv (PyInt (Z.of_nat i)) (sample_rate h)); cbn;
    split; intros H; try discriminate; now injection H as ->.
Qed.

(** With a rate above zero and indices within the float range, every row
    is produced. *)
Lemma timestamped_data_all_ok (h : Header) (ss : list Sample) :
  is_positive (sample_rate h) = true ->
  Z.of_nat (length ss) <= float_overflow_bound ->
  Forall is_ok (timestamped_data h ss).
Proof.
  intros Hpos Hlen. apply Forall_forall. intros r Hin.
  destruct (In_nth_error _ _ Hin) as [i Hi].
  rewrite nth_error_timestamped_data in Hi.
  destruct (nth_error ss i) as [s |] eqn:Hs; [| discriminate].
  injection Hi as <-.
  assert (i < length ss)%nat by (apply nth_error_Some; congruence).
  destruct (truediv_int_pos (Z.of_nat i) _ Hpos) as [t Ht]; [lia |].
  unfold is_ok. rewrite (timestamped_row_time h i s t Ht). eexists; reflexivity.
Qed.

(** C1.  For a header whose [sample_rate] is above zero and a sample list
    of length N (a list index always fits a float: N is at most
    [float_overflow_bound]), the generator yields exactly N rows, none of
    them an exception, and row [i] is [i / sample_rate] followed by the
    channel values of sample [i], in order. *)
Theorem timestamped_data_rows (h : Header) (ss : list Sample) :
  is_positive (sample_rate h) = true ->
  Z.of_nat (length ss) <= float_overflow_bound ->
  exists rows,
    timestamped_data h ss = map Ok rows /\
    length rows = length ss /\
    forall i s, nth_error ss i = Some s ->
      exists t,
        truediv (PyInt (Z.of_nat i)) (sample_rate h) = Ok t /\
        nth_error rows i = Some (VNum (PyFloat t) :: map VNum (channel s)).
Proof.
  intros Hpos Hlen.
  destruct (produced_all_ok _ (timestamped_data_all_ok h ss Hpos Hlen)) as [Hrows _].
  exists (produced (timestamped_data h ss)).
  split; [exact Hrows |]. split.
  - pose proof (f_equal (@length _) Hrows) as Hl.
    rewrite length_map, length_timestamped_data in Hl. now symmetry.
  - intros i s Hs.
    assert (i < length ss)%nat by (apply nth_error_Some; congruence).
    destruct (truediv_int_pos (Z.of_nat i) _ Hpos) as [t Ht]; [lia |].
    exists t. split; [exact Ht |].
    pose proof (nth_error_timestamped_data h ss i) as Hi.
    rewrite Hs, Hrows, nth_error_map in Hi. cbn in Hi.
    rewrite (timestamped_row_time h i s t Ht) in Hi.
    destruct (nth_error (produced (timestamped_data h ss)) i) as [r |];
      cbn in Hi; [| discriminate].
    injection Hi as ->. reflexivity.
Qed.

Lemma timestamped_data_rows_witness :
  is_positive (sample_rate Examples.header_1k) = true /\
  Z.of_nat (length Examples.samples_2) <= float_overflow_bound /\
  exists rows,
    timestamped_data Examples.header_1k Examples.samples_2 = map Ok rows /\
    length rows = length Examples.samples_2 /\
    forall i s, nth_error Examples.samples_2 i = Some s ->
      exists t,
        truediv (PyInt (Z.of_nat i)) (sample_rate Examples.header_1k) = Ok t /\
        nth_error rows i = Some (VNum (PyFloat t) :: map VNum (channel s)).
Proof.
  split; [reflexivity |]. split; [vm_compute; discriminate |].
  apply (timestamped_data_rows Examples.header_1k Examples.samples_2);
    [reflexivity | vm_compute; discriminate].
Defined.

(** The first data row of the sample log is [[0.0, 0.5, -0.5]]. *)
Example first_row_of_sample_log :
  nth_error (timestamped_data Examples.header_1k Examples.samples_2) 0
  = Some (Ok [VNum (PyFloat 0); VNum (PyFloat 0.5); VNum (PyFloat (-0.5))]).
Proof. vm_compute. reflexivity. Qed.

(** *** The column header *)

Lemma column_header_shape (h : Header) :
  column_header h
  = VStr "Time" :: map (fun c => VStr ("Channel " ++ str_int c)) (active_channels h).
Proof. reflexivity. Qed.

(** C4.  For a valid header (a channel count between 0 and the length of
    [channel_map]) the column header row has [num_channels + 1] elements,
    the first is ["Time"], and element [i + 1] is ["Channel "] followed by
    entry [i] of [channel_map], for each [i] below [num_channels]. *)
Theorem column_header_valid (h : Header) :
  0 <= num_channels h <= Z.of_nat (length (channel_map h)) ->
  Z.of_nat (length (column_header h)) = num_channels h + 1 /\
  nth_error (column_header h) 0 = Some (VStr "Time") /\
  forall i, Z.of_nat i < num_channels h ->
    exists c,
      nth_error (channel_map h) i = Some c /\
      nth_error (column_header h) (S i) = Some (VStr ("Channel " ++ str_int c)).
Proof.
  intros Hn. rewrite column_header_shape. cbn [length nth_error].
  split; [| split; [reflexivity |]].
  - rewrite length_map. unfold active_channels.
    rewrite slice_to_length by exact Hn. lia.
  - intros i Hi.
    destruct (nth_error (channel_map h) i) as [c |] eqn:Hc.
    + exists c. split; [reflexivity |].
      rewrite nth_error_map. unfold active_channels.
      rewrite slice_to_nth by lia. now rewrite Hc.
    + apply nth_error_None in Hc. lia.
Qed.

Lemma column_header_valid_witness :
  0 <= num_channels Examples.header_1k
    <= Z.of_nat (length (channel_map Examples.header_1k)) /\
  Z.of_nat (length (column_header Examples.header_1k))
    = num_channels Examples.header_1k + 1 /\
  nth_error (column_header Examples.header_1k) 0 = Some (VStr "Time") /\
  forall i, Z.of_nat i < num_channels Examples.header_1k ->
    exists c,
      nth_error (channel_map Examples.header_1k) i = Some c /\
      nth_error (column_header Examples.header_1k) (S i)
        = Some (VStr ("Channel " ++ str_int c)).
Proof.
  split; [cbn; lia |].
  apply (column_header_valid Examples.header_1k). cbn; lia.
Defined.

Example column_header_of_sample_log :
  column_header Examples.header_1k
  = [VStr "Time"; VStr "Channel 0"; VStr "Channel 1"].
Proof. reflexivity. Qed.

(** *** Samples whose length differs from the channel count *)

(** C5, as the code behaves: a sample with one value under a header that
    announces two channels gives a row of two cells, not an exception. *)
Lemma short_sample_gives_short_row :
  num_channels Examples.header_1k = 2 /\
  length (channel Examples.short_sample) = 1%nat /\
  timestamped_data Examples.header_1k [Examples.short_sample]
  = [Ok [VNum (PyFloat 0); VNum (PyInt 7)]] /\
  ~ exists e,
      In (Raise e) (timestamped_data Examples.header_1k [Examples.short_sample]).
Proof.
  repeat split.
  intros [e [He | []]]. vm_compute in He. discriminate.
Qed.

(** C5 amended.  The channel count plays no part in the production of a
    row: whenever the time [i / sample_rate] is computed, the row is that
    time followed by all the values of the sample, however many there are,
    and the only exceptions are those of the division. *)
Theorem timestamped_row_any_length (h : Header) (i : nat) (s : Sample) :
  (forall n, timestamped_row (with_num_channels n h) i s = timestamped_row h i s) /\
  (forall t, truediv (PyInt (Z.of_nat i)) (sample_rate h) = Ok t ->
     exists r, timestamped_row h i s = Ok r /\
               r = VNum (PyFloat t) :: map VNum (channel s) /\
               length r = S (length (channel s))) /\
  (forall e, timestamped_row h i s = Raise e
             <-> truediv (PyInt (Z.of_nat i)) (sample_rate h) = Raise e).
Proof.
  split; [reflexivity |]. split.
  - intros t Ht. exists (VNum (PyFloat t) :: map VNum (channel s)).
    split; [now apply timestamped_row_time |].
    split; [reflexivity |]. cbn. now rewrite length_map.
  - intros e. apply timestamped_row_raise.
Qed.

Lemma timestamped_row_any_length_witness :
  truediv (PyInt (Z.of_nat 0)) (sample_rate Examples.header_1k) = Ok 0%float /\
  exists r, timestamped_row Examples.header_1k 0 Examples.short_sample = Ok r /\
            r = VNum (PyFloat 0) :: map VNum (channel Examples.short_sample) /\
            length r = S (length (channel Examples.short_sample)).
Proof.
  split; [reflexivity |].
  apply (proj1 (proj2 (timestamped_row_any_length
                         Examples.header_1k 0 Examples.short_sample))).
  reflexivity.
Defined.

(** *** The data values are written as they are *)

(** C10.  The cells after the time are the channel values of the sample,
    unchanged, and the rows do not depend on [voltage_scale]. *)
Theorem timestamped_row_verbatim (h : Header) (i : nat) (s : Sample) :
  (forall r, timestamped_row h i s = Ok r -> tl r = map VNum (channel s)) /\
  (forall v ss, timestamped_data (with_voltage_scale v h) ss = timestamped_data h ss).
Proof.
  split; [| reflexivity].
  intros r. unfold timestamped_row.
  destruct (truediv (PyInt (Z.of_nat i)) (sample_rate h)); cbn;
    intros Hr; [| discriminate].
  now injection Hr as <-.
Qed.

Lemma timestamped_row_verbatim_witness :
  timestamped_row Examples.header_1k 0 Examples.short_sample
    = Ok [VNum (PyFloat 0); VNum (PyInt 7)] /\
  tl [VNum (PyFloat 0); VNum (PyInt 7)] = map VNum (channel Examples.short_sample).
Proof.
  split; [reflexivity |].
  apply (proj1 (timestamped_row_verbatim
                  Examples.header_1k 0 Examples.short_sample)).
  reflexivity.
Defined.

(** *** The order of the rows *)

(** [writerows] appends the rows produced before the first exception and
    ends as the generator does. *)
Lemma writerows_spec (data : list (result row)) :
  forall w,
    writerows data w
    = (outcome data,
       {| dctx := dctx w; stderr := stderr w;
          csv_out := csv_out w ++ produced data |}).
Proof.
  induction data as [| [r | e] data IH]; intros [d err out]; cbn.
  - now rewrite app_nil_r.
  - unfold mbind, lift, writerow, modify; cbn.
    rewrite IH; cbn. now rewrite <- app_assoc.
  - unfold mbind, lift; cbn. now rewrite app_nil_r.
Qed.

Lemma write_csv_spec (data : list (result row)) (lh ch : option row) (w : world) :
  write_csv data lh ch w
  = (outcome data,
     {| dctx := dctx w; stderr := stderr w;
        csv_out := csv_out w
                   ++ match lh with Some r => [r] | None => [] end
                   ++ match ch with Some r => [r] | None => [] end
                   ++ produced data |}).
Proof.
  destruct w as [d err out].
  unfold write_csv, mbind, writerow, modify, ret.
  destruct lh, ch; cbn; rewrite writerows_spec; cbn;
    now rewrite <- ?app_assoc.
Qed.

(** The table part of [main]: what it leaves on stdout and how it ends. *)
Lemma main_table_spec (args : Args) (h : Header) (ss : list Sample) (w : world) :
  main_table args h ss w
  = (outcome (timestamped_data h ss),
     {| dctx := dctx w; stderr := stderr w;
        csv_out := csv_out w
                   ++ optional_row (negb (no_csv_log_header args)) (log_header h)
                   ++ optional_row (negb (no_csv_column_header args)) (column_header h)
                   ++ produced (timestamped_data h ss) |}).
Proof.
  unfold main_table. rewrite write_csv_spec.
  now destruct (no_csv_log_header args), (no_csv_column_header args).
Qed.

(** With [--quiet], [main] is its table part. *)
Lemma main_quiet (args : Args) (dlog : Dlog) (w : world) :
  quiet args = true ->
  main args dlog w = main_table args (header dlog) (samples dlog) w.
Proof.
  intros Hq. unfold main, main_summary, mbind. rewrite Hq. reflexivity.
Qed.

(** C6.  Whatever the header, the samples and the two flags, the rows on
    stdout are the log header row if requested, then the column header row
    if requested, then the data rows in input order (all of them when the
    rate is above zero; those before the exception otherwise).  Switching
    a flag off removes that one row and leaves the others as they were. *)
Theorem main_table_row_order (h : Header) (ss : list Sample) :
  (forall args,
     table_rows args h ss
     = (optional_row (negb (no_csv_log_header args)) (log_header h)
        ++ optional_row (negb (no_csv_column_header args)) (column_header h)
        ++ produced (timestamped_data h ss))%list) /\
  (forall q c,
     table_rows {| quiet := q; no_csv_log_header := false;
                   no_csv_column_header := c |} h ss
     = log_header h
       :: table_rows {| quiet := q; no_csv_log_header := true;
                        no_csv_column_header := c |} h ss) /\
  (forall q,
     table_rows {| quiet := q; no_csv_log_header := true;
                   no_csv_column_header := false |} h ss
     = column_header h
       :: table_rows {| quiet := q; no_csv_log_header := true;
                        no_csv_column_header := true |} h ss) /\
  (forall q,
     table_rows {| quiet := q; no_csv_log_header := false;
                   no_csv_column_header := false |} h ss
     = log_header h
       :: column_header h
       :: table_rows {| quiet := q; no_csv_log_header := true;
                        no_csv_column_header := true |} h ss) /\
  (is_positive (sample_rate h) = true ->
   Z.of_nat (length ss) <= float_overflow_bound ->
   timestamped_data h ss = map Ok (produced (timestamped_data h ss)) /\
   length (produced (timestamped_data h ss)) = length ss /\
   forall args w, fst (main_table args h ss w) = Ok tt).
Proof.
  assert (Hrows : forall args,
     table_rows args h ss
     = (optional_row (negb (no_csv_log_header args)) (log_header h)
        ++ optional_row (negb (no_csv_column_header args)) (column_header h)
        ++ produced (timestamped_data h ss))%list).
  { intros args. unfold table_rows. now rewrite main_table_spec. }
  split; [exact Hrows |].
  split; [intros q c; rewrite !Hrows; reflexivity |].
  split; [intros q; rewrite !Hrows; reflexivity |].
  split; [intros q; rewrite !Hrows; reflexivity |].
  intros Hpos Hlen.
  destruct (produced_all_ok _ (timestamped_data_all_ok h ss Hpos Hlen)) as [Hall Hend].
  split; [exact Hall |]. split.
  - pose proof (f_equal (@length _) Hall) as Hl.
    rewrite length_map, length_timestamped_data in Hl. now symmetry.
  - intros args w. now rewrite main_table_spec.
Qed.

Lemma main_table_row_order_witness :
  is_positive (sample_rate Examples.header_1k) = true /\
  Z.of_nat (length Examples.samples_2) <= float_overflow_bound /\
  timestamped_data Examples.header_1k Examples.samples_2
    = map Ok (produced (timestamped_data Examples.header_1k Examples.samples_2)) /\
  length (produced (timestamped_data Examples.header_1k Examples.samples_2))
    = length Examples.samples_2 /\
  forall args w,
    fst (main_table args Examples.header_1k Examples.samples_2 w) = Ok tt.
Proof.
  split; [reflexivity |]. split; [vm_compute; discriminate |].
  apply (proj2 (proj2 (proj2 (proj2
           (main_table_row_order Examples.header_1k Examples.samples_2)))));
    [reflexivity | vm_compute; discriminate].
Defined.

(** The table of the sample log, with both header rows. *)
Example table_of_sample_log :
  table_rows Examples.all_rows Examples.header_1k Examples.samples_2
  = [ [ VStr "dlog_format=DlogFormats.openlogger";
        VStr "stop_reason=StopReasons.normal";
        VStr "num_samples=2"; VStr "voltage_scale=1000";
        VStr "num_channels=2"; VStr "channel_map=[0, 1]" ];
      [ VStr "Time"; VStr "Channel 0"; VStr "Channel 1" ];
      [ VNum (PyFloat 0); VNum (PyFloat 0.5); VNum (PyFloat (-0.5)) ];
      [ VNum (PyFloat 0.001); VNum (PyInt 3); VNum (PyInt 4) ] ].
Proof. vm_compute. reflexivity. Qed.

(** *** The log header row *)

Lemma log_header_shape (h : Header) :
  log_header h = map (fun fv => VStr (field_string fv)) (public_vars h).
Proof.
  unfold log_header, public_vars.
  apply map_ext. now intros [f v].
Qed.

(** A name without ["="] can be read back from its [field=value] string. *)
Lemma field_string_name (f1 f2 s1 s2 : string) :
  has_char "=" f1 = false -> has_char "=" f2 = false ->
  f1 ++ "=" ++ s1 = f2 ++ "=" ++ s2 -> f1 = f2.
Proof.
  revert f2. induction f1 as [| a f1 IH]; intros [| c f2]; cbn; intros H1 H2 Heq.
  - reflexivity.
  - injection Heq as <- _. discriminate H2.
  - injection Heq as -> _. discriminate H1.
  - injection Heq as -> Heq.
    apply orb_false_iff in H1 as [_ H1]. apply orb_false_iff in H2 as [_ H2].
    f_equal. now apply IH.
Qed.

(** Dropping entries of a dictionary keeps its names distinct. *)
Lemma distinct_names_filter (keep : string * pyval -> bool)
    (d : list (string * pyval)) :
  NoDup (map fst d) -> NoDup (map fst (filter keep d)).
Proof.
  induction d as [| entry d IH]; cbn; intros Hnd; [constructor |].
  inversion Hnd as [| x xs Hnotin Hrest]; subst.
  destruct (keep entry); cbn; [| now apply IH].
  constructor; [| now apply IH].
  intros Hin. apply Hnotin.
  apply in_map_iff in Hin as [other [Hname Hin]].
  apply filter_In in Hin as [Hin _].
  apply in_map_iff. now exists other.
Qed.

Lemma public_vars_In (h : Header) (f : string) (v : pyval) :
  In (f, v) (public_vars h) <-> In (f, v) (vars h) /\ is_public f = true.
Proof. unfold public_vars. now rewrite filter_In. Qed.

(** C7.  The log header row has one cell per public attribute of the
    header (an attribute whose name does not start with an underscore), in
    the order of the attributes, each of the form [field=value]; with the
    names of a dictionary (distinct, and free of ["="]) each public field
    has exactly one cell; and the row is the same whenever the public
    attributes are, so building it again, also after private attributes
    were added, gives the same list. *)
Theorem log_header_fields (h : Header) :
  length (log_header h) = length (public_vars h) /\
  (forall i f v, nth_error (public_vars h) i = Some (f, v) ->
     nth_error (log_header h) i = Some (VStr (f ++ "=" ++ py_str v))) /\
  (forall f v, In (f, v) (vars h) -> is_public f = true ->
     In (VStr (f ++ "=" ++ py_str v)) (log_header h)) /\
  (forall cell, In cell (log_header h) ->
     exists f v, In (f, v) (vars h) /\ is_public f = true /\
                 cell = VStr (f ++ "=" ++ py_str v)) /\
  (NoDup (map fst (vars h)) ->
   (forall f v, In (f, v) (vars h) -> has_char "=" f = false) ->
   forall f v, In (f, v) (vars h) -> is_public f = true ->
     exists i,
       nth_error (log_header h) i = Some (VStr (f ++ "=" ++ py_str v)) /\
       forall j shown,
         nth_error (log_header h) j = Some (VStr (f ++ "=" ++ shown)) -> j = i) /\
  (forall h', public_vars h' = public_vars h -> log_header h' = log_header h) /\
  (forall d1 d2 f v, is_public f = false ->
     log_header (with_vars (d1 ++ (f, v) :: d2) h)
     = log_header (with_vars (d1 ++ d2) h)).
Proof.
  rewrite log_header_shape.
  split; [apply length_map |].
  split.
  { intros i f v Hi. rewrite nth_error_map, Hi. reflexivity. }
  split.
  { intros f v Hin Hpub. apply in_map_iff. exists (f, v).
    split; [reflexivity | now apply public_vars_In]. }
  split.
  { intros cell Hin. apply in_map_iff in Hin as [[f v] [<- Hin]].
    apply public_vars_In in Hin as [Hin Hpub]. now exists f, v. }
  split.
  { intros Hnd Hname f v Hin Hpub.
    assert (Hpv : In (f, v) (public_vars h)) by now apply public_vars_In.
    destruct (In_nth_error _ _ Hpv) as [i Hi].
    exists i. split; [rewrite nth_error_map, Hi; reflexivity |].
    intros j shown Hj. rewrite nth_error_map in Hj.
    destruct (nth_error (public_vars h) j) as [[f' v'] |] eqn:Hj'; [| discriminate].
    cbn in Hj. injection Hj as Heq.
    assert (Hin' : In (f', v') (vars h)).
    { apply nth_error_In in Hj'. now apply public_vars_In in Hj'. }
    assert (f' = f) as ->.
    { unfold field_string in Heq. cbn [fst snd] in Heq.
      apply (field_string_name f' f (py_str v') shown);
        [exact (Hname _ _ Hin') | exact (Hname _ _ Hin) | exact Heq]. }
    pose proof (distinct_names_filter (fun '(f, _) => is_public f) _ Hnd) as Hnd'.
    fold (public_vars h) in Hnd'.
    apply (proj1 (NoDup_nth_error _) Hnd').
    - rewrite length_map. apply nth_error_Some. congruence.
    - rewrite !nth_error_map, Hi, Hj'. reflexivity. }
  split.
  { intros h' Heq. now rewrite log_header_shape, Heq. }
  intros d1 d2 f v Hpriv. rewrite !log_header_shape. f_equal.
  unfold public_vars; cbn. rewrite !filter_app; cbn. now rewrite Hpriv.
Qed.

Lemma log_header_fields_witness :
  NoDup (map fst (vars Examples.header_1k)) /\
  (forall f v, In (f, v) (vars Examples.header_1k) -> has_char "=" f = false) /\
  In ("num_samples", VNum (PyInt 2)) (vars Examples.header_1k) /\
  is_public "num_samples" = true /\
  exists i,
    nth_error (log_header Examples.header_1k) i
      = Some (VStr ("num_samples" ++ "=" ++ py_str (VNum (PyInt 2)))) /\
    forall j shown,
      nth_error (log_header Examples.header_1k) j
        = Some (VStr ("num_samples" ++ "=" ++ shown)) -> j = i.
Proof.
  assert (Hnd : NoDup (map fst (vars Examples.header_1k))).
  { cbn. repeat (constructor;
      [cbn; intros H; repeat (destruct H as [H | H]; [discriminate H |]); exact H |]).
    constructor. }
  assert (Hname : forall f v, In (f, v) (vars Examples.header_1k) ->
                              has_char "=" f = false).
  { cbn. intros f v H.
    repeat (destruct H as [H | H]; [injection H as <- <-; reflexivity |]).
    contradiction. }
  split; [exact Hnd |]. split; [exact Hname |].
  split; [cbn; tauto |]. split; [reflexivity |].
  apply (proj1 (proj2 (proj2 (proj2 (proj2
           (log_header_fields Examples.header_1k))))) Hnd Hname);
    [cbn; tauto | reflexivity].
Defined.

End Table.

(** ** Computations: results that ignore the state, and that return *)

Module MonadFacts.
Import Py.

Section Laws.
Context {S A B : Type}.

Lemma oblivious_ret (a : A) : oblivious (@ret S A a).
Proof. now intros s1 s2. Qed.

Lemma oblivious_raise (e : exn) : oblivious (@raise S A e).
Proof. now intros s1 s2. Qed.

Lemma oblivious_lift (r : result A) : oblivious (@lift S A r).
Proof. now intros s1 s2. Qed.

Lemma oblivious_modify (f : S -> S) : oblivious (modify f).
Proof. now intros s1 s2. Qed.

Lemma oblivious_bind (c : M S A) (k : A -> M S B) :
  oblivious c -> (forall a, oblivious (k a)) -> oblivious (mbind c k).
Proof.
  intros Hc Hk s1 s2. unfold mbind.
  specialize (Hc s1 s2).
  destruct (c s1) as [[a1 | e1] t1], (c s2) as [[a2 | e2] t2]; cbn in Hc;
    try discriminate; injection Hc as ->; [apply Hk | reflexivity].
Qed.

Lemma returns_ret (a : A) : returns (@ret S A a).
Proof. intros s. now exists a. Qed.

Lemma returns_modify (f : S -> S) : returns (modify f).
Proof. intros s. now exists tt. Qed.

Lemma returns_bind (c : M S A) (k : A -> M S B) :
  returns c -> (forall a, returns (k a)) -> returns (mbind c k).
Proof.
  intros Hc Hk s. unfold mbind.
  destruct (Hc s) as [a Ha].
  destruct (c s) as [[a' | e] t]; cbn in Ha; [| discriminate].
  apply Hk.
Qed.

(** The result of a sequence is that of its second part, run from the
    state the first part leaves. *)
Lemma mbind_ok (c : M S A) (k : A -> M S B) (s s' : S) (a : A) :
  c s = (Ok a, s') -> mbind c k s = k a s'.
Proof. intros Hc. unfold mbind. now rewrite Hc. Qed.

Lemma mbind_raise (c : M S A) (k : A -> M S B) (s s' : S) (e : exn) :
  c s = (Raise e, s') -> mbind c k s = (Raise e, s').
Proof. intros Hc. unfold mbind. now rewrite Hc. Qed.
End Laws.

End MonadFacts.

(** ** Properties of decimals *)

Module DecimalFacts.
Import Py Decimal MonadFacts.
#[local] Open Scope py_scope.

Ltac oblivious_step :=
  first
    [ apply oblivious_ret
    | apply oblivious_raise
    | apply oblivious_lift
    | apply oblivious_modify
    | apply oblivious_bind; [| intros ?]
    | match goal with
      | |- oblivious (if ?b then _ else _) => destruct b
      | |- oblivious (let '(_, _) := ?p in _) => destruct p
      | |- oblivious (match ?x with _ => _ end) => destruct x
      end ].

Lemma oblivious_raise_error (sg : signal) : oblivious (raise_error sg).
Proof. apply oblivious_modify. Qed.

Lemma oblivious_overflow {A : Type} : oblivious (@overflow A).
Proof. unfold overflow. repeat oblivious_step. Qed.

Lemma oblivious_when (b : bool) (c : M context unit) :
  oblivious c -> oblivious (when b c).
Proof. intros Hc. destruct b; [exact Hc | apply oblivious_ret]. Qed.

Lemma oblivious_fix (d : decimal) : oblivious (fix_ d).
Proof.
  unfold fix_.
  repeat first
    [ apply oblivious_raise_error
    | apply oblivious_overflow
    | apply oblivious_when
    | oblivious_step ].
Qed.

Lemma oblivious_normalize (d : decimal) : oblivious (normalize d).
Proof.
  unfold normalize.
  destruct d; repeat first [ apply oblivious_fix | oblivious_step ].
Qed.

Lemma oblivious_Decimal (x : pynum) : oblivious (Decimal x).
Proof.
  destruct x; cbn; repeat first [ apply oblivious_raise_error | oblivious_step ].
Qed.

(** What [Decimal(x).normalize().to_eng_string()] gives for some numbers. *)
Example eng_string_samples :
  map (fun x => fst (eng_string x fresh_context))
      [ PyInt 1000; PyInt 1500; PyInt 200; PyInt 12000000; PyInt 0;
        PyInt (-4200); PyFloat 0.5; PyFloat 44100; PyFloat 1e+22 ]
  = [ Ok "1E+3"; Ok "1.5E+3"; Ok "200"; Ok "12E+6"; Ok "0";
      Ok "-4.2E+3"; Ok "0.5"; Ok "44.1E+3"; Ok "10E+21" ].
Proof. vm_compute. reflexivity. Qed.

Lemma Decimal_exact (x : pynum) (ctx : context) :
  fst (Decimal x ctx) = Ok (exact x).
Proof. now destruct x. Qed.

Ltac bool_to_prop :=
  repeat match goal with
    | H : (_ <? _) = true |- _ => apply Z.ltb_lt in H
    | H : (_ <? _) = false |- _ => apply Z.ltb_ge in H
    | H : (_ <=? _) = true |- _ => apply Z.leb_le in H
    | H : (_ <=? _) = false |- _ => apply Z.leb_gt in H
    end.

Lemma returns_raise_error (sg : signal) : returns (raise_error sg).
Proof. apply returns_modify. Qed.

Lemma returns_when (b : bool) (c : M context unit) :
  returns c -> returns (when b c).
Proof. intros Hc. destruct b; [exact Hc | apply returns_ret]. Qed.

Ltac returns_step :=
  first
    [ apply returns_ret
    | apply returns_raise_error
    | apply returns_when
    | apply returns_bind; [| intros ?]
    | match goal with
      | |- context [if ?b then _ else _] => destruct b eqn:?
      end ].

(** Rounding a decimal that fits to the context raises nothing. *)
Lemma returns_fix (d : decimal) : fits d -> returns (fix_ d).
Proof.
  destruct d as [s c e | s |]; cbn [fits fix_]; intros Hfit;
    try apply returns_ret.
  cbv zeta.
  destruct (N.eqb_spec c 0) as [-> | Hc].
  - repeat returns_step.
  - destruct Hfit as [Hz | Hfit]; [contradiction |].
    unfold Etop, Etiny, Emin, Emax, prec in *.
    repeat returns_step;
      repeat match goal with
        | H : context [if ?b then _ else _] |- _ => destruct b eqn:?
        end;
      bool_to_prop; exfalso; lia.
Qed.

Lemma returns_normalize (d : decimal) : fits d -> returns (normalize d).
Proof.
  intros Hfit. unfold normalize.
  destruct d as [s c e | s |]; try apply returns_ret;
    (apply returns_bind; [now apply returns_fix |]);
    intros [s' c' e' | s' |]; try apply returns_ret;
    (destruct (c' =? 0)%N; [apply returns_ret |]);
    destruct (strip_zeros _ c' e'); apply returns_ret.
Qed.

(** *** Trailing zeros *)

Lemma strip_zeros_spec (fuel : nat) :
  forall c e,
    c <> 0%N -> (c < 2 ^ N.of_nat fuel)%N ->
    forall c' e', strip_zeros fuel c e = (c', e') ->
      c' <> 0%N /\ ((c' mod 10)%N <> 0%N \/ Emax <= e') /\
      e <= e' /\ c = (c' * 10 ^ Z.to_N (e' - e))%N.
Proof.
  induction fuel as [| fuel IH]; intros c e Hc Hlt c' e' Hs.
  - cbn in Hlt. lia.
  - cbn [strip_zeros] in Hs.
    destruct (N.eqb_spec (c mod 10) 0) as [Hmod | Hmod]; cbn [andb] in Hs.
    + destruct (Z.ltb_spec e Emax) as [He | He].
      * pose proof (N.div_mod c 10 ltac:(lia)) as Hdiv.
        assert (Hc10 : (c / 10)%N <> 0%N) by lia.
        assert (Hlt10 : (c / 10 < 2 ^ N.of_nat fuel)%N).
        { rewrite Nat2N.inj_succ, N.pow_succ_r' in Hlt. lia. }
        destruct (IH _ _ Hc10 Hlt10 _ _ Hs) as (H1 & H2 & H3 & H4).
        repeat split; [exact H1 | exact H2 | lia |].
        replace (Z.to_N (e' - e)) with (N.succ (Z.to_N (e' - (e + 1)))) by lia.
        rewrite N.pow_succ_r'. lia.
      * injection Hs as <- <-. repeat split; [exact Hc | now right | lia |].
        rewrite Z.sub_diag. cbn. lia.
    + injection Hs as <- <-. repeat split; [exact Hc | now left | lia |].
      rewrite Z.sub_diag. cbn. lia.
Qed.

(** What [normalize] returns has no trailing zeros. *)
Lemma normalize_normalized (d d' : decimal) (ctx ctx' : context) :
  normalize d ctx = (Ok d', ctx') -> normalized d'.
Proof.
  unfold normalize.
  destruct d as [s c e | s |].
  3: { intros H. injection H as <- _. exact I. }
  all: unfold mbind;
    match goal with
    | |- context [fix_ ?x ?c0] => destruct (fix_ x c0) as [[dup | err] c1]
    end;
    [| intros H; discriminate H].
  all: destruct dup as [s2 c2 e2 | s2 |];
    try (intros H; injection H as <- _; exact I).
  all: destruct (N.eqb_spec c2 0) as [-> | Hc2];
    [intros H; injection H as <- _; left; now split |].
  all: destruct (strip_zeros _ c2 e2) as [c3 e3] eqn:Hs;
    intros H; injection H as <- _.
  all: assert (Hlt : (c2 < 2 ^ N.of_nat (S (N.to_nat (N.log2 c2))))%N)
    by (rewrite Nat2N.inj_succ, N2Nat.id; apply N.log2_spec; lia).
  all: destruct (strip_zeros_spec _ _ _ Hc2 Hlt _ _ Hs) as (H1 & H2 & _);
    right; now split.
Qed.

(** *** Engineering notation *)

(** The exponent [to_eng_string] writes is a multiple of three. *)
Lemma eng_exponent_mod3 (c : N) (e len : Z) : eng_exponent c e len mod 3 = 0.
Proof.
  unfold eng_exponent, eng_dotplace. cbv zeta.
  destruct ((e <=? 0) && (-6 <? e + len)).
  - now rewrite Z.sub_diag.
  - destruct (c =? 0)%N.
    + pose proof (Z.div_mod (e + len + 1) 3 ltac:(lia)).
      replace (e + len - ((e + len + 1) mod 3 - 1))
        with ((e + len + 1) / 3 * 3) by lia.
      apply Z.mod_mul. lia.
    + pose proof (Z.div_mod (e + len - 1) 3 ltac:(lia)).
      replace (e + len - ((e + len - 1) mod 3 + 1))
        with ((e + len - 1) / 3 * 3) by lia.
      apply Z.mod_mul. lia.
Qed.

Lemma shown_exponent_mod3 (d : decimal) : shown_exponent d mod 3 = 0.
Proof. destruct d; [apply eng_exponent_mod3 | reflexivity | reflexivity]. Qed.

(** *** Numbers that fit the context *)

Lemma count_digits_le (fuel : nat) :
  forall c, count_digits fuel c <= Z.of_nat fuel + 1.
Proof.
  induction fuel as [| fuel IH]; intros c; cbn [count_digits]; [lia |].
  destruct (c <? 10)%N; [lia |]. specialize (IH (c / 10)%N). lia.
Qed.

Lemma ndigits_le_log2 (c : N) : ndigits c <= Z.of_N (N.log2 c) + 1.
Proof.
  unfold ndigits. pose proof (count_digits_le (N.to_nat (N.log2 c)) c). lia.
Qed.

Lemma fits_log2 (s : bool) (c : N) (e : Z) :
  Z.of_N (N.log2 c) + 1 + e <= Emax -> fits (Finite s c e).
Proof. intros H. right. pose proof (ndigits_le_log2 c). lia. Qed.

(** An int of less than [Emax - 1] bits fits. *)
Lemma fits_from_int (z : Z) : Z.log2 (Z.abs z) + 1 < Emax -> fits (from_int z).
Proof.
  intros H. apply fits_log2.
  assert (Hlog : Z.of_N (N.log2 (Z.abs_N z)) = Z.log2 (Z.abs z))
    by (destruct z as [| p | p]; [reflexivity | now destruct p ..]).
  lia.
Qed.

Lemma digits2_pos_size (m : positive) : digits2_pos m = Pos.size m.
Proof. induction m; cbn; congruence. Qed.

(** The mantissa and exponent of a finite float are bounded. *)
Lemma finite_float_bounds (f : float) (s : bool) (m : positive) (e : Z) :
  Prim2SF f = S754_finite s m e ->
  -1074 <= e <= 971 /\ (N.log2 (Npos m) < 53)%N.
Proof.
  intros Hf. pose proof (Prim2SF_valid f) as Hv. rewrite Hf in Hv.
  unfold valid_binary, bounded, canonical_mantissa, fexp, emin in Hv.
  apply andb_prop in Hv as [Hcanon He].
  apply Z.eqb_eq in Hcanon. apply Z.leb_le in He.
  rewrite digits2_pos_size in Hcanon.
  change FloatOps.prec with 53 in *. change emax with 1024 in *.
  assert (Hsize : N.size (Npos m) = N.succ (N.log2 (Npos m)))
    by now apply N.size_log2.
  cbn [N.size] in Hsize.
  assert (Hz : Zpos (Pos.size m) = Z.of_N (N.succ (N.log2 (Npos m))))
    by now rewrite <- Hsize.
  lia.
Qed.

Lemma reduce_ratio_bounds (fuel : nat) :
  forall m k n k',
    0 <= k -> reduce_ratio fuel m k = (n, k') ->
    (n <= m)%N /\ 0 <= k' <= k.
Proof.
  induction fuel as [| fuel IH]; intros m k n k' Hk Hr; cbn [reduce_ratio] in Hr.
  - injection Hr as <- <-. lia.
  - destruct (Z.ltb_spec 0 k) as [Hpos | Hle]; cbn [andb] in Hr.
    + destruct (N.even m).
      * destruct (IH (m / 2)%N (k - 1) n k' ltac:(lia) Hr) as [Hn Hk'].
        pose proof (N.div_mod m 2 ltac:(lia)).
        pose proof (N.le_0_l (m mod 2)). lia.
      * injection Hr as <- <-. lia.
    + injection Hr as <- <-. lia.
Qed.

Lemma log2_pow5 (k : N) : (N.log2 (5 ^ k) <= 3 * k)%N.
Proof.
  rewrite <- (N.log2_pow2 (3 * k)) by lia.
  apply N.log2_le_mono.
  rewrite N.pow_mul_r. apply N.pow_le_mono_l. cbn. lia.
Qed.

(** Every float fits: its exact expansion has a few thousand digits at
    most. *)
Lemma fits_from_float (f : float) : fits (from_float f).
Proof.
  unfold from_float.
  destruct (Prim2SF f) as [s | s | | s m e] eqn:Hf; cbn [fits]; auto.
  destruct (finite_float_bounds f s m e Hf) as [He Hm].
  destruct (Z.leb_spec 0 e) as [Hpos | Hneg].
  - apply fits_log2.
    rewrite N.log2_mul_pow2 by lia. unfold Emax. lia.
  - destruct (reduce_ratio _ (Npos m) (- e)) as [n k] eqn:Hr.
    destruct (reduce_ratio_bounds _ (Npos m) (- e) n k ltac:(lia) Hr) as [Hn Hk].
    apply fits_log2.
    pose proof (N.log2_mul_above n (5 ^ Z.to_N k) ltac:(lia) ltac:(lia)) as Hmul.
    pose proof (log2_pow5 (Z.to_N k)) as H5.
    pose proof (N.log2_le_mono _ _ Hn) as Hlog.
    unfold Emax. lia.
Qed.

Lemma fits_exact_float (f : float) : fits (exact (PyFloat f)).
Proof. apply fits_from_float. Qed.

(** *** Decimals of at most 28 digits keep their value *)

(** Within the precision and the exponent range, [_fix] changes nothing. *)
Lemma fix_short (s : bool) (c : N) (e : Z) (ctx : context) :
  c <> 0%N -> ndigits c <= prec -> Etiny <= e -> ndigits c + e <= Emax ->
  fst (fix_ (Finite s c e) ctx) = Ok (Finite s c e).
Proof.
  intros Hc Hn He Hfit. cbn [fix_]. cbv zeta.
  destruct (N.eqb_spec c 0) as [Hz | _]; [contradiction |].
  unfold Etop, Etiny, Emin, Emax, prec in *.
  destruct (Z.ltb_spec (999999 - 28 + 1) (ndigits c + e - 28)) as [Hover | _];
    [lia |].
  destruct (Z.ltb_spec (ndigits c + e - 28) (-999999 - 28 + 1)) as [Hsub | Hsub].
  - destruct (Z.ltb_spec e (-999999 - 28 + 1)) as [Hlow | _]; [lia |].
    reflexivity.
  - destruct (Z.ltb_spec e (ndigits c + e - 28)) as [Hlow | _]; [lia |].
    reflexivity.
Qed.

(** [normalize] then only strips zeros: the coefficient and exponent it
    returns spell the same number. *)
Lemma normalize_short (s : bool) (c : N) (e : Z) (ctx : context) :
  c <> 0%N -> ndigits c <= prec -> Etiny <= e -> ndigits c + e <= Emax ->
  exists c' e',
    fst (normalize (Finite s c e) ctx) = Ok (Finite s c' e') /\
    e <= e' /\ c = (c' * 10 ^ Z.to_N (e' - e))%N /\
    ((c' mod 10)%N <> 0%N \/ Emax <= e').
Proof.
  intros Hc Hn He Hfit.
  pose proof (fix_short s c e ctx Hc Hn He Hfit) as Hfix.
  unfold normalize, mbind.
  destruct (fix_ (Finite s c e) ctx) as [r c1]. cbn [fst] in Hfix. subst r.
  destruct (N.eqb_spec c 0) as [Hz | _]; [contradiction |].
  destruct (strip_zeros _ c e) as [c' e'] eqn:Hs.
  assert (Hlt : (c < 2 ^ N.of_nat (S (N.to_nat (N.log2 c))))%N)
    by (rewrite Nat2N.inj_succ, N2Nat.id; apply N.log2_spec; lia).
  destruct (strip_zeros_spec _ _ _ Hc Hlt _ _ Hs) as (_ & Hlast & Hle & Hval).
  exists c', e'. now repeat split.
Qed.

Lemma ndigits_pos (c : N) : 1 <= ndigits c.
Proof.
  unfold ndigits. generalize (N.to_nat (N.log2 c)). intros fuel. revert c.
  induction fuel as [| fuel IH]; intros c; cbn [count_digits]; [lia |].
  destruct (c <? 10)%N; [lia |]. specialize (IH (c / 10)%N). lia.
Qed.

Lemma normalize_short_value (d r : decimal) (ctx : context) :
  short d -> fst (normalize d ctx) = Ok r -> same_value d r.
Proof.
  destruct d as [s c e | s |]; cbn [short]; try contradiction.
  intros (Hc & Hn & He) Hr.
  assert (Hfit : ndigits c + e <= Emax) by (unfold prec, Emax in *; lia).
  destruct (normalize_short s c e ctx Hc Hn (proj1 He) Hfit)
    as (c' & e' & Hrun & Hle & Hval & _).
  rewrite Hrun in Hr. injection Hr as <-. now repeat split.
Qed.

End DecimalFacts.

(** ** The metadata presenter *)

Module Presenter.
Import Py Decimal Dlogcsv PyFacts MonadFacts DecimalFacts.
#[local] Open Scope py_scope.

(** *** The shape of the list *)

Lemma format_header_info_shape (h : Header) (ctx : context) :
  format_header_info h ctx
  = match presenter_values h ctx with
    | (Ok (u, rate, dly), c) =>
        (Ok (info_list h (py_str u) (to_eng_string rate) (to_eng_string dly)), c)
    | (Raise e, c) => (Raise e, c)
    end.
Proof.
  unfold format_header_info, presenter_values, mbind, lift, ret.
  repeat match goal with
    | |- context [match ?x with _ => _ end] => destruct x
    end; reflexivity.
Qed.

Lemma Decimal_run (x : pynum) (ctx : context) :
  exists ctx', Decimal x ctx = (Ok (exact x), ctx').
Proof. destruct x; cbn; eexists; reflexivity. Qed.

(** The values of the presenter do not depend on the Decimal context. *)
Lemma presenter_values_fst (h : Header) (ctx : context) :
  fst (presenter_values h ctx)
  = bind (voltage_units h) (fun u =>
    bind (fst (normalize (exact (sample_rate h)) fresh_context)) (fun rate =>
    bind (fst (normalize (exact (delay h)) fresh_context)) (fun dly =>
    Ok (u, rate, dly)))).
Proof.
  unfold presenter_values, mbind, lift.
  destruct (voltage_units h) as [u | e]; cbn [bind fst]; [| reflexivity].
  destruct (Decimal_run (sample_rate h) ctx) as [c1 ->].
  destruct (Decimal_run (delay h) c1) as [c2 ->].
  rewrite <- (oblivious_normalize (exact (sample_rate h)) c2 fresh_context).
  destruct (normalize (exact (sample_rate h)) c2) as [[rate | e] c3];
    cbn [bind fst]; [| reflexivity].
  rewrite <- (oblivious_normalize (exact (delay h)) c3 fresh_context).
  destruct (normalize (exact (delay h)) c3) as [[dly | e] c4]; reflexivity.
Qed.

Lemma format_header_info_fst (h : Header) (ctx : context) :
  fst (format_header_info h ctx)
  = bind (fst (presenter_values h ctx)) (fun '(u, rate, dly) =>
    Ok (info_list h (py_str u) (to_eng_string rate) (to_eng_string dly))).
Proof.
  rewrite format_header_info_shape.
  now destruct (presenter_values h ctx) as [[[[u rate] dly] | e] c].
Qed.

Lemma oblivious_format_header_info (h : Header) : oblivious (format_header_info h).
Proof.
  intros c1 c2. now rewrite !format_header_info_fst, !presenter_values_fst.
Qed.

(** What a successful call has computed. *)
Lemma format_header_info_ok (h : Header) (ctx : context) (info : list string) :
  fst (format_header_info h ctx) = Ok info ->
  exists u rate dly,
    voltage_units h = Ok u /\
    fst (normalize (exact (sample_rate h)) fresh_context) = Ok rate /\
    fst (normalize (exact (delay h)) fresh_context) = Ok dly /\
    info = info_list h (py_str u) (to_eng_string rate) (to_eng_string dly).
Proof.
  rewrite format_header_info_fst, presenter_values_fst.
  destruct (voltage_units h) as [u | e]; cbn [bind]; [| discriminate].
  destruct (fst (normalize (exact (sample_rate h)) fresh_context)) as [rate | e];
    cbn [bind]; [| discriminate].
  destruct (fst (normalize (exact (delay h)) fresh_context)) as [dly | e];
    cbn [bind]; [| discriminate].
  intros H. injection H as <-. now exists u, rate, dly.
Qed.

(** A voltage scale above zero can be inverted. *)
Lemma voltage_units_positive (h : Header) :
  is_positive (voltage_scale h) = true -> is_ok (voltage_units h).
Proof.
  intros Hpos. unfold voltage_units.
  destruct (truediv_int_pos 1 _ Hpos) as [r ->]; [reflexivity |].
  cbn [bind]. eexists; reflexivity.
Qed.

(** The presenter returns on every presentable header. *)
Lemma format_header_info_returns (h : Header) :
  presentable h -> returns (format_header_info h).
Proof.
  intros (Hv & Hr & Hd) ctx.
  rewrite format_header_info_fst, presenter_values_fst.
  destruct (voltage_units_positive h Hv) as [u ->]; cbn [bind].
  destruct (returns_normalize _ Hr fresh_context) as [rate ->]; cbn [bind].
  destruct (returns_normalize _ Hd fresh_context) as [dly ->]; cbn [bind].
  eexists; reflexivity.
Qed.

(** *** The voltage unit *)

Lemma has_char_app (c : ascii) (a b : string) :
  has_char c (a ++ b) = has_char c a || has_char c b.
Proof.
  induction a as [| x a IH]; cbn; [reflexivity |].
  now rewrite IH, orb_assoc.
Qed.

(** The digits of a float come with a point or an exponent; [inf] and
    [nan] have an [n]. *)
Lemma float_repr_marks (f : float) :
  has_char "." (float_repr f) = true \/
  has_char "e" (float_repr f) = true \/
  has_char "n" (float_repr f) = true.
Proof.
  unfold float_repr.
  destruct (Prim2SF f) as [s | s | | s m e].
  - left. now destruct s.
  - right; right. now destruct s.
  - right; right. reflexivity.
  - destruct (shortest m e) as [D k].
    unfold format_repr. cbv zeta.
    repeat match goal with
      | |- context [if ?b then _ else _] => destruct b
      end;
      rewrite !has_char_app; cbn [has_char Ascii.eqb Bool.eqb orb];
      rewrite ?orb_true_r; auto.
Qed.

Lemma float_repr_not_unit (f : float) :
  float_repr f <> "mV" /\ float_repr f <> "V".
Proof.
  split; intros Heq;
    destruct (float_repr_marks f) as [H | [H | H]];
    rewrite Heq in H; discriminate H.
Qed.

(** A float equal to a finite float is that float. *)
Lemma float_eqb_finite (f a : float) (s : bool) (m : positive) (e : Z) :
  Prim2SF a = S754_finite s m e -> (f =? a)%float = true -> f = a.
Proof.
  intros Ha Heq. rewrite eqb_spec, Ha in Heq.
  rewrite <- (SF2Prim_Prim2SF f), <- (SF2Prim_Prim2SF a), Ha. f_equal.
  destruct (Prim2SF f) as [s' | s' | | s' m' e'];
    unfold SFeqb, SFcompare in Heq;
    try (destruct s', s; discriminate Heq); try discriminate Heq.
  destruct s', s; try discriminate Heq;
    (destruct (Z.compare e' e) eqn:He; try discriminate Heq);
    (destruct (Pos.compare_cont Eq m' m) eqn:Hm; try discriminate Heq);
    apply Z.compare_eq in He; apply Pos.compare_eq in Hm; now subst.
Qed.

Lemma eq_int_1000 (x : pynum) :
  eq_int x 1000 = true -> x = PyInt 1000 \/ x = PyFloat 1000.
Proof.
  destruct x as [z | f]; cbn [eq_int]; intros H.
  - left. apply Z.eqb_eq in H. now subst.
  - right. f_equal.
    apply (float_eqb_finite f _ false 8796093022208000 (-43)); [| exact H].
    vm_compute. reflexivity.
Qed.

Lemma eq_int_1 (x : pynum) :
  eq_int x 1 = true -> x = PyInt 1 \/ x = PyFloat 1.
Proof.
  destruct x as [z | f]; cbn [eq_int]; intros H.
  - left. apply Z.eqb_eq in H. now subst.
  - right. f_equal.
    apply (float_eqb_finite f _ false 4503599627370496 (-52)); [| exact H].
    vm_compute. reflexivity.
Qed.

(** C2.  A voltage scale equal to 1000 is shown as ["mV"] and one equal to
    1 as ["V"]; any other scale above zero is shown as the float
    [1 / voltage_scale], written as a number and hence never as one of the
    unit strings.  What is shown is the fourth item of the presenter. *)
Theorem voltage_units_policy (h : Header) :
  (eq_int (voltage_scale h) 1000 = true -> voltage_units h = Ok (VStr "mV")) /\
  (eq_int (voltage_scale h) 1 = true -> voltage_units h = Ok (VStr "V")) /\
  (is_positive (voltage_scale h) = true ->
   eq_int (voltage_scale h) 1000 = false ->
   eq_int (voltage_scale h) 1 = false ->
   exists r,
     truediv (PyInt 1) (voltage_scale h) = Ok r /\
     voltage_units h = Ok (VNum (PyFloat r)) /\
     py_str (VNum (PyFloat r)) = float_repr r /\
     float_repr r <> "mV" /\ float_repr r <> "V") /\
  (forall ctx info,
     fst (format_header_info h ctx) = Ok info ->
     exists u, voltage_units h = Ok u /\
               nth_error info 3 = Some ("voltage units: " ++ py_str u)).
Proof.
  unfold voltage_units.
  split; [| split; [| split]].
  - intros H. destruct (eq_int_1000 _ H) as [-> | ->]; reflexivity.
  - intros H. destruct (eq_int_1 _ H) as [-> | ->]; reflexivity.
  - intros Hpos H1000 H1.
    destruct (truediv_int_pos 1 _ Hpos) as [r Hr]; [reflexivity |].
    exists r. rewrite Hr. cbn [bind].
    unfold dict_get, voltage_scale_strings. cbn [find fst]. rewrite H1000, H1.
    cbn [option_map]. destruct (float_repr_not_unit r) as [Hm Hv].
    now repeat split.
  - intros ctx info Hinfo.
    destruct (format_header_info_ok h ctx info Hinfo)
      as (u & rate & dly & Hu & _ & _ & ->).
    exists u. split; [exact Hu | reflexivity].
Qed.

Lemma voltage_units_policy_witness :
  (eq_int (voltage_scale Examples.header_1k) 1000 = true /\
   voltage_units Examples.header_1k = Ok (VStr "mV")) /\
  (is_positive (voltage_scale Examples.header_500) = true /\
   eq_int (voltage_scale Examples.header_500) 1000 = false /\
   eq_int (voltage_scale Examples.header_500) 1 = false /\
   exists r,
     truediv (PyInt 1) (voltage_scale Examples.header_500) = Ok r /\
     voltage_units Examples.header_500 = Ok (VNum (PyFloat r)) /\
     py_str (VNum (PyFloat r)) = float_repr r /\
     float_repr r <> "mV" /\ float_repr r <> "V").
Proof.
  split.
  - split; [reflexivity |].
    apply (proj1 (voltage_units_policy Examples.header_1k)). reflexivity.
  - split; [reflexivity |]. split; [reflexivity |]. split; [reflexivity |].
    apply (proj1 (proj2 (proj2 (voltage_units_policy Examples.header_500))));
      reflexivity.
Defined.

(** A scale of 500 is shown as the number 0.002. *)
Example voltage_units_of_500 :
  option_map py_str
    (match voltage_units Examples.header_500 with Ok u => Some u | Raise _ => None end)
  = Some "0.002".
Proof. vm_compute. reflexivity. Qed.

(** *** Sample rate and delay *)

Lemma normalize_fst_normalized (d rate : decimal) :
  fst (normalize d fresh_context) = Ok rate -> normalized rate.
Proof.
  destruct (normalize d fresh_context) as [r c] eqn:Hn. cbn [fst].
  intros ->. exact (normalize_normalized _ _ _ _ Hn).
Qed.

(** C3, as the code behaves: for a rate of 1000 (held as an int or as a
    float) and a delay of 0.002 the presenter writes the rate as [1E+3],
    not [1k], and the delay with the digits of the binary float, not as
    [2m]. *)
Lemma sample_log_rate_and_delay :
  (exists info,
     fst (format_header_info Examples.header_1k fresh_context) = Ok info /\
     nth_error info 4 = Some "sample rate: 1E+3 Sa/s" /\
     nth_error info 5 = Some "delay: 0.002000000000000000041633363423 s" /\
     ~ In "sample rate: 1k Sa/s" info /\ ~ In "delay: 2m s" info) /\
  (exists info,
     fst (format_header_info Examples.header_1k_float fresh_context) = Ok info /\
     nth_error info 4 = Some "sample rate: 1E+3 Sa/s" /\
     nth_error info 5 = Some "delay: 0.002000000000000000041633363423 s" /\
     ~ In "sample rate: 1k Sa/s" info /\ ~ In "delay: 2m s" info).
Proof.
  split; eexists; (split; [vm_compute; reflexivity |]);
    (split; [reflexivity |]); (split; [reflexivity |]);
    split; intros Hin; cbn in Hin;
    repeat (destruct Hin as [Hin | Hin]; [discriminate Hin |]); exact Hin.
Qed.

(** C3 amended.  On every header the presenter accepts, the fifth and
    sixth items are the rate and the delay as
    [Decimal(value).normalize().to_eng_string()] with the suffixes
    [" Sa/s"] and [" s"]: the decimal has no trailing zeros, it spells
    the exact value when that has at most 28 digits, and the exponent,
    when one is written, is a multiple of three written after [E].  A rate
    of 1000 is shown as [1E+3]; the float 0.002 is shown with the 28
    leading digits of its binary value. *)
Theorem format_header_info_rate_and_delay (h : Header) (ctx : context)
    (info : list string) :
  fst (format_header_info h ctx) = Ok info ->
  (exists rate dly,
     fst (normalize (exact (sample_rate h)) fresh_context) = Ok rate /\
     fst (normalize (exact (delay h)) fresh_context) = Ok dly /\
     normalized rate /\ normalized dly /\
     (short (exact (sample_rate h)) -> same_value (exact (sample_rate h)) rate) /\
     (short (exact (delay h)) -> same_value (exact (delay h)) dly) /\
     shown_exponent rate mod 3 = 0 /\ shown_exponent dly mod 3 = 0 /\
     nth_error info 4 = Some ("sample rate: " ++ to_eng_string rate ++ " Sa/s") /\
     nth_error info 5 = Some ("delay: " ++ to_eng_string dly ++ " s")) /\
  (sample_rate h = PyInt 1000 \/ sample_rate h = PyFloat 1000 ->
   nth_error info 4 = Some "sample rate: 1E+3 Sa/s") /\
  (delay h = PyFloat 0.002 ->
   nth_error info 5 = Some "delay: 0.002000000000000000041633363423 s").
Proof.
  intros Hinfo.
  destruct (format_header_info_ok h ctx info Hinfo)
    as (u & rate & dly & _ & Hrate & Hdly & ->).
  split; [| split].
  - exists rate, dly.
    split; [exact Hrate |]. split; [exact Hdly |].
    split; [exact (normalize_fst_normalized _ _ Hrate) |].
    split; [exact (normalize_fst_normalized _ _ Hdly) |].
    split; [intros Hs; exact (normalize_short_value _ _ _ Hs Hrate) |].
    split; [intros Hs; exact (normalize_short_value _ _ _ Hs Hdly) |].
    split; [apply shown_exponent_mod3 |].
    split; [apply shown_exponent_mod3 |].
    now split.
  - intros [Hr | Hr]; rewrite Hr in Hrate; vm_compute in Hrate;
      injection Hrate as <-; reflexivity.
  - intros Hd. rewrite Hd in Hdly. vm_compute in Hdly.
    injection Hdly as <-. vm_compute. reflexivity.
Qed.

Lemma format_header_info_rate_and_delay_witness :
  fst (format_header_info Examples.header_1k fresh_context)
    = Ok [ "log format: openlogger"; "stop reason: normal";
           "number of samples: 2"; "voltage units: mV";
           "sample rate: 1E+3 Sa/s";
           "delay: 0.002000000000000000041633363423 s";
           "number of channels: 2"; "channel map: [0, 1]" ] /\
  sample_rate Examples.header_1k = PyInt 1000 /\
  nth_error [ "log format: openlogger"; "stop reason: normal";
              "number of samples: 2"; "voltage units: mV";
              "sample rate: 1E+3 Sa/s";
              "delay: 0.002000000000000000041633363423 s";
              "number of channels: 2"; "channel map: [0, 1]" ] 4
    = Some "sample rate: 1E+3 Sa/s".
Proof.
  assert (Hrun : fst (format_header_info Examples.header_1k fresh_context)
            = Ok [ "log format: openlogger"; "stop reason: normal";
                   "number of samples: 2"; "voltage units: mV";
                   "sample rate: 1E+3 Sa/s";
                   "delay: 0.002000000000000000041633363423 s";
                   "number of channels: 2"; "channel map: [0, 1]" ])
    by (vm_compute; reflexivity).
  split; [exact Hrun |]. split; [reflexivity |].
  apply (proj1 (proj2 (format_header_info_rate_and_delay
                         Examples.header_1k fresh_context _ Hrun))).
  left; reflexivity.
Defined.

(** *** Calling the presenter again *)

(** C9.  Two calls in a row give the same result, whatever the first call
    left in the Decimal context; a returned list is the eight strings for
    format, stop reason, sample count, voltage unit, rate, delay, channel
    count and channel map, in that order; and the presenter returns on
    every presentable header. *)
Theorem format_header_info_twice (h : Header) (ctx : context) :
  fst (format_header_info h (snd (format_header_info h ctx)))
    = fst (format_header_info h ctx) /\
  (forall info,
     fst (format_header_info h ctx) = Ok info ->
     length info = 8%nat /\
     exists unit_shown rate_shown delay_shown,
       info = [ "log format: " ++ name (dlog_format h);
                "stop reason: " ++ name (stop_reason h);
                "number of samples: " ++ str_int (num_samples h);
                "voltage units: " ++ unit_shown;
                "sample rate: " ++ rate_shown ++ " Sa/s";
                "delay: " ++ delay_shown ++ " s";
                "number of channels: " ++ str_int (num_channels h);
                "channel map: " ++ str_list (map PyInt (active_channels h)) ]) /\
  (presentable h -> exists info, fst (format_header_info h ctx) = Ok info).
Proof.
  split; [apply oblivious_format_header_info |]. split.
  - intros info Hinfo.
    destruct (format_header_info_ok h ctx info Hinfo)
      as (u & rate & dly & _ & _ & _ & ->).
    split; [reflexivity |].
    now exists (py_str u), (to_eng_string rate), (to_eng_string dly).
  - intros Hp. exact (format_header_info_returns h Hp ctx).
Qed.

Lemma presentable_sample_log : presentable Examples.header_1k.
Proof.
  split; [reflexivity |]. split.
  - apply fits_from_int. vm_compute. reflexivity.
  - apply fits_exact_float.
Qed.

Lemma format_header_info_twice_witness :
  presentable Examples.header_1k /\
  exists info, fst (format_header_info Examples.header_1k fresh_context) = Ok info.
Proof.
  split; [exact presentable_sample_log |].
  apply (proj2 (proj2 (format_header_info_twice Examples.header_1k fresh_context))).
  exact presentable_sample_log.
Defined.

(** *** The whole of [main] *)

(** The summary comes first: when the presenter raises, nothing reaches
    stdout; otherwise stdout gets the table. *)
Lemma main_rows (args : Args) (dlog : Dlog) :
  csv_out (snd (main args dlog initial_world))
  = if quiet args then table_rows args (header dlog) (samples dlog)
    else match fst (format_header_info (header dlog) fresh_context) with
         | Ok _ => table_rows args (header dlog) (samples dlog)
         | Raise _ => []
         end.
Proof.
  unfold table_rows, main, main_summary, mbind, with_dctx, print_stderr, modify.
  destruct (quiet args); cbn [negb ret initial_world dctx]; [reflexivity |].
  destruct (format_header_info (header dlog) fresh_context) as [[info | e] c];
    cbn [fst snd csv_out]; [| reflexivity].
  now rewrite !Table.main_table_spec.
Qed.

(** *** More channels announced than mapped *)

Lemma format_header_info_num_channels (h : Header) (n : Z) (ctx : context) :
  forall e,
    fst (format_header_info (with_num_channels n h) ctx) = Raise e
    <-> fst (format_header_info h ctx) = Raise e.
Proof.
  intros e. rewrite !format_header_info_fst, !presenter_values_fst.
  cbn [with_num_channels voltage_scale sample_rate delay].
  change (voltage_units (with_num_channels n h)) with (voltage_units h).
  destruct (voltage_units h); cbn [bind]; [| reflexivity].
  destruct (fst (normalize (exact (sample_rate h)) fresh_context));
    cbn [bind]; [| reflexivity].
  destruct (fst (normalize (exact (delay h)) fresh_context));
    cbn [bind]; [| reflexivity].
  split; discriminate.
Qed.

(** C8.  When [num_channels] exceeds the length of [channel_map], the slice
    is the whole map: the column header row is ["Time"] and one title per
    entry of the map, the channel-map item of the presenter lists the whole
    map, and no exception comes from the slice (the presenter raises
    exactly when it does for any other channel count, and returns on every
    presentable header). *)
Theorem oversized_num_channels (h : Header) :
  Z.of_nat (length (channel_map h)) < num_channels h ->
  active_channels h = channel_map h /\
  column_header h
    = VStr "Time" :: map (fun c => VStr ("Channel " ++ str_int c)) (channel_map h) /\
  length (column_header h) = S (length (channel_map h)) /\
  (forall ctx info,
     fst (format_header_info h ctx) = Ok info ->
     nth_error info 7
       = Some ("channel map: " ++ str_list (map PyInt (channel_map h)))) /\
  (forall ctx n e,
     fst (format_header_info h ctx) = Raise e
     <-> fst (format_header_info (with_num_channels n h) ctx) = Raise e) /\
  (presentable h -> forall ctx, exists info, fst (format_header_info h ctx) = Ok info).
Proof.
  intros Hn.
  assert (Hall : active_channels h = channel_map h)
    by (apply slice_to_short; lia).
  split; [exact Hall |].
  split; [unfold column_header; now rewrite Hall |].
  split; [unfold column_header; rewrite Hall; cbn; now rewrite length_map |].
  split; [| split].
  - intros ctx info Hinfo.
    destruct (format_header_info_ok h ctx info Hinfo)
      as (u & rate & dly & _ & _ & _ & ->).
    cbn. now rewrite Hall.
  - intros ctx n e. symmetry. apply format_header_info_num_channels.
  - intros Hp ctx. exact (format_header_info_returns h Hp ctx).
Qed.

Lemma oversized_num_channels_witness :
  Z.of_nat (length (channel_map Examples.header_oversized))
    < num_channels Examples.header_oversized /\
  column_header Examples.header_oversized
    = VStr "Time" :: map (fun c => VStr ("Channel " ++ str_int c))
                         (channel_map Examples.header_oversized) /\
  length (column_header Examples.header_oversized)
    = S (length (channel_map Examples.header_oversized)).
Proof.
  split; [cbn; lia |].
  assert (H : Z.of_nat (length (channel_map Examples.header_oversized))
              < num_channels Examples.header_oversized) by (cbn; lia).
  split.
  - exact (proj1 (proj2 (oversized_num_channels Examples.header_oversized H))).
  - exact (proj1 (proj2 (proj2 (oversized_num_channels Examples.header_oversized H)))).
Defined.

Example presenter_of_oversized_header :
  fst (format_header_info Examples.header_oversized fresh_context)
  = Ok [ "log format: openlogger"; "stop reason: normal";
         "number of samples: 2"; "voltage units: mV";
         "sample rate: 1E+3 Sa/s";
         "delay: 0.002000000000000000041633363423 s";
         "number of channels: 5"; "channel map: [0, 1]" ].
Proof. vm_compute. reflexivity. Qed.

End Presenter.

(** ** Exceptions of the presenter *)

Module PresenterErrors.
Import Py Decimal Dlogcsv PyFacts MonadFacts DecimalFacts Presenter.
#[local] Open Scope py_scope.

Section RaisesLaws.
Context {S A B : Type}.

Lemma raises_only_ret (e0 : exn) (a : A) : raises_only e0 (@ret S A a).
Proof. intros s e H. discriminate H. Qed.

Lemma raises_only_modify (e0 : exn) (f : S -> S) : raises_only e0 (modify f).
Proof. intros s e H. discriminate H. Qed.

Lemma raises_only_raise (e0 : exn) : raises_only e0 (@raise S A e0).
Proof. intros s e H. now injection H as <-. Qed.

Lemma raises_only_bind (e0 : exn) (c : M S A) (k : A -> M S B) :
  raises_only e0 c -> (forall a, raises_only e0 (k a)) ->
  raises_only e0 (mbind c k).
Proof.
  intros Hc Hk s e. unfold mbind.
  specialize (Hc s). destruct (c s) as [[a | e1] s1]; cbn [fst] in *.
  - apply Hk.
  - intros H. injection H as <-. now apply Hc.
Qed.
End RaisesLaws.

Ltac raises_only_step :=
  first
    [ apply raises_only_ret
    | apply raises_only_modify
    | apply raises_only_raise
    | apply raises_only_bind; [| intros ?]
    | match goal with
      | |- context [if ?b then _ else _] => destruct b
      | |- raises_only _ (let '(_, _) := ?p in _) => destruct p
      | |- raises_only _ (match ?x with _ => _ end) => destruct x
      end ].

(** Decimal arithmetic raises nothing but its trapped Overflow. *)
Lemma raises_only_fix (d : decimal) : raises_only DecimalOverflow (fix_ d).
Proof.
  unfold fix_, overflow, raise_error, when. repeat raises_only_step.
Qed.

Lemma raises_only_normalize (d : decimal) :
  raises_only DecimalOverflow (normalize d).
Proof.
  unfold normalize.
  destruct d; repeat first [ apply raises_only_fix | raises_only_step ].
Qed.

(** [1 / x] raises exactly when [x] is zero. *)
Lemma truediv_one (x : pynum) :
  if is_zero x then truediv (PyInt 1) x = Raise ZeroDivisionError
  else is_ok (truediv (PyInt 1) x).
Proof.
  destruct x as [z | f]; cbn [is_zero truediv].
  - unfold int_true_divide.
    destruct (Z.eqb_spec z 0) as [-> | Hz]; [reflexivity |].
    cbn [Z.eqb].
    pose proof float_overflow_bound_pos.
    assert (H1 : 1 < float_overflow_bound) by reflexivity.
    destruct (Z.leb_spec (float_overflow_bound * Z.abs z) (Z.abs 1)) as [Hle | _].
    + exfalso.
      assert (float_overflow_bound * 1 <= float_overflow_bound * Z.abs z)
        by (apply Z.mul_le_mono_nonneg_l; lia).
      change (Z.abs 1) with 1 in Hle. lia.
    + eexists; reflexivity.
  - change (float_of_int 1) with (Ok 1%float). cbn [bind]. unfold float_div.
    destruct (f =? 0)%float; [reflexivity | eexists; reflexivity].
Qed.

Lemma voltage_units_raise (h : Header) :
  if is_zero (voltage_scale h)
  then voltage_units h = Raise ZeroDivisionError
  else is_ok (voltage_units h).
Proof.
  unfold voltage_units. pose proof (truediv_one (voltage_scale h)) as H.
  destruct (is_zero (voltage_scale h)).
  - now rewrite H.
  - destruct H as [r ->]. eexists; reflexivity.
Qed.

Lemma presenter_result (h : Header) (ctx : context) :
  fst (format_header_info h ctx)
  = bind (voltage_units h) (fun u =>
    bind (fst (normalize (exact (sample_rate h)) fresh_context)) (fun rate =>
    bind (fst (normalize (exact (delay h)) fresh_context)) (fun dly =>
    Ok (info_list h (py_str u) (to_eng_string rate) (to_eng_string dly))))).
Proof.
  rewrite format_header_info_fst, presenter_values_fst.
  destruct (voltage_units h); cbn [bind]; [| reflexivity].
  destruct (fst (normalize (exact (sample_rate h)) fresh_context));
    cbn [bind]; [| reflexivity].
  now destruct (fst (normalize (exact (delay h)) fresh_context)).
Qed.

Lemma presenter_returns_when (h : Header) (ctx : context) :
  is_ok (voltage_units h) ->
  fits (exact (sample_rate h)) -> fits (exact (delay h)) ->
  is_ok (fst (format_header_info h ctx)).
Proof.
  intros [u Hu] Hr Hd. rewrite presenter_result, Hu. cbn [bind].
  destruct (returns_normalize _ Hr fresh_context) as [rate ->]; cbn [bind].
  destruct (returns_normalize _ Hd fresh_context) as [dly ->]; cbn [bind].
  eexists; reflexivity.
Qed.

(** A number fits the Decimal context unless it is an int of 999998 bits
    or more. *)
Lemma fits_or_huge (x : pynum) :
  fits (exact x) \/ exists z, x = PyInt z /\ Emax <= Z.log2 (Z.abs z) + 1.
Proof.
  destruct x as [z | f].
  - destruct (Z_lt_dec (Z.log2 (Z.abs z) + 1) Emax) as [Hsmall | Hbig].
    + left. now apply fits_from_int.
    + right. exists z. split; [reflexivity | lia].
  - left. apply fits_exact_float.
Qed.

Lemma presenter_raise_zero (h : Header) (ctx : context) :
  is_zero (voltage_scale h) = true ->
  format_header_info h ctx = (Raise ZeroDivisionError, ctx).
Proof.
  intros Hz. pose proof (voltage_units_raise h) as Hv. rewrite Hz in Hv.
  unfold format_header_info, mbind, lift. now rewrite Hv.
Qed.

(** X1.  The presenter raises ZeroDivisionError exactly when the voltage
    scale is zero (the int 0, or the float 0.0 or -0.0), it does so before
    touching the Decimal context, and it never raises OverflowError. *)
Theorem presenter_zero_division (h : Header) (ctx : context) :
  (fst (format_header_info h ctx) = Raise ZeroDivisionError
   <-> is_zero (voltage_scale h) = true) /\
  (is_zero (voltage_scale h) = true -> snd (format_header_info h ctx) = ctx) /\
  fst (format_header_info h ctx) <> Raise OverflowError.
Proof.
  pose proof (voltage_units_raise h) as Hv.
  assert (Hother : forall e,
            is_zero (voltage_scale h) = false ->
            fst (format_header_info h ctx) = Raise e -> e = DecimalOverflow).
  { intros e Hz. rewrite Hz in Hv. destruct Hv as [u Hu].
    rewrite presenter_result, Hu. cbn [bind].
    destruct (fst (normalize (exact (sample_rate h)) fresh_context)) as [rate | e1]
      eqn:Hr; cbn [bind].
    - destruct (fst (normalize (exact (delay h)) fresh_context)) as [dly | e2]
        eqn:Hd; cbn [bind]; [discriminate |].
      intros H. injection H as <-.
      exact (raises_only_normalize _ _ _ Hd).
    - intros H. injection H as <-.
      exact (raises_only_normalize _ _ _ Hr). }
  destruct (is_zero (voltage_scale h)) eqn:Hz.
  - rewrite (presenter_raise_zero h ctx Hz). cbn [fst snd].
    split; [tauto |]. split; [reflexivity | discriminate].
  - split; [| split].
    + split; [| discriminate].
      intros H. specialize (Hother _ eq_refl H). discriminate Hother.
    + discriminate.
    + intros H. specialize (Hother _ eq_refl H). discriminate Hother.
Qed.

Lemma presenter_zero_division_witness :
  is_zero (voltage_scale Examples.header_zero_scale) = true /\
  format_header_info Examples.header_zero_scale fresh_context
  = (Raise ZeroDivisionError, fresh_context).
Proof.
  split; [reflexivity |].
  pose proof (presenter_zero_division Examples.header_zero_scale fresh_context)
    as (Hraise & Hctx & _).
  specialize (Hctx eq_refl). apply proj2 in Hraise. specialize (Hraise eq_refl).
  destruct (format_header_info Examples.header_zero_scale fresh_context) as [r c].
  cbn [fst snd] in *. now subst.
Defined.

(** X2.  With a rate and a delay held as floats (NaN and the infinities
    included) and a voltage scale other than zero the presenter always
    returns; and when it raises the Decimal Overflow, the rate or the
    delay is an int of 999998 bits or more. *)
Theorem presenter_decimal_overflow (h : Header) (ctx : context) :
  (forall r d,
     sample_rate h = PyFloat r -> delay h = PyFloat d ->
     is_zero (voltage_scale h) = false ->
     is_ok (fst (format_header_info h ctx))) /\
  (fst (format_header_info h ctx) = Raise DecimalOverflow ->
   exists z,
     (sample_rate h = PyInt z \/ delay h = PyInt z) /\
     Emax <= Z.log2 (Z.abs z) + 1).
Proof.
  pose proof (voltage_units_raise h) as Hv.
  split.
  - intros r d Hr Hd Hz. rewrite Hz in Hv.
    apply presenter_returns_when; [exact Hv | |].
    + rewrite Hr. apply fits_exact_float.
    + rewrite Hd. apply fits_exact_float.
  - intros Hraise.
    destruct (is_zero (voltage_scale h)) eqn:Hz.
    + exfalso. rewrite (presenter_raise_zero h ctx Hz) in Hraise.
      discriminate Hraise.
    + destruct (fits_or_huge (sample_rate h)) as [Hr | (z & Hr & Hbig)];
        [| exists z; tauto].
      destruct (fits_or_huge (delay h)) as [Hd | (z & Hd & Hbig)];
        [| exists z; tauto].
      exfalso.
      destruct (presenter_returns_when h ctx Hv Hr Hd) as [info Hok].
      rewrite Hok in Hraise. discriminate Hraise.
Qed.

Lemma presenter_decimal_overflow_witness :
  sample_rate Examples.header_1k_float = PyFloat 1000 /\
  delay Examples.header_1k_float = PyFloat 0.002 /\
  is_zero (voltage_scale Examples.header_1k_float) = false /\
  is_ok (fst (format_header_info Examples.header_1k_float fresh_context)).
Proof.
  split; [reflexivity |]. split; [reflexivity |]. split; [reflexivity |].
  apply (proj1 (presenter_decimal_overflow
                  Examples.header_1k_float fresh_context) 1000%float 0.002%float);
    reflexivity.
Defined.

End PresenterErrors.

(** ** The flags of the Decimal context *)

Module ContextFlags.
Import Py Decimal Dlogcsv PyFacts MonadFacts DecimalFacts PresenterErrors.
#[local] Open Scope py_scope.

Lemma keeps_flags_refl (c : context) : keeps_flags c c.
Proof. now intros sg. Qed.

Lemma keeps_flags_trans (c1 c2 c3 : context) :
  keeps_flags c1 c2 -> keeps_flags c2 c3 -> keeps_flags c1 c3.
Proof. intros H12 H23 sg H. auto. Qed.

Lemma keeps_flags_set (sg : signal) (c : context) : keeps_flags c (set_flag sg c).
Proof. intros x H. cbn. rewrite H. now destruct (signal_eqb sg x). Qed.

Lemma set_flag_set (sg : signal) (c : context) : flags (set_flag sg c) sg = true.
Proof. cbn. now destruct sg. Qed.

Section StickyLaws.
Context {A B : Type}.

Lemma sticky_ret (a : A) : sticky (ret a).
Proof. intros s. apply keeps_flags_refl. Qed.

Lemma sticky_raise (e : exn) : sticky (@raise context A e).
Proof. intros s. apply keeps_flags_refl. Qed.

Lemma sticky_lift (r : result A) : sticky (lift r).
Proof. intros s. apply keeps_flags_refl. Qed.

Lemma sticky_bind (c : M context A) (k : A -> M context B) :
  sticky c -> (forall a, sticky (k a)) -> sticky (mbind c k).
Proof.
  intros Hc Hk s. unfold mbind. specialize (Hc s).
  destruct (c s) as [[a | e] s1]; cbn [snd] in *; [| exact Hc].
  exact (keeps_flags_trans _ _ _ Hc (Hk a s1)).
Qed.
End StickyLaws.

Lemma sticky_raise_error (sg : signal) : sticky (raise_error sg).
Proof. intros s. apply keeps_flags_set. Qed.

Lemma sticky_overflow {A : Type} : sticky (@overflow A).
Proof.
  unfold overflow. apply sticky_bind; [| intros; apply sticky_raise].
  intros s. cbn [modify snd].
  repeat (eapply keeps_flags_trans; [| apply keeps_flags_set]).
  apply keeps_flags_refl.
Qed.

Lemma sticky_when (b : bool) (c : M context unit) : sticky c -> sticky (when b c).
Proof. intros Hc. destruct b; [exact Hc | apply sticky_ret]. Qed.

Ltac sticky_step :=
  first
    [ apply sticky_ret
    | apply sticky_raise
    | apply sticky_lift
    | apply sticky_raise_error
    | apply sticky_overflow
    | apply sticky_when
    | apply sticky_bind; [| intros ?]
    | match goal with
      | |- sticky (if ?b then _ else _) => destruct b
      | |- sticky (let '(_, _) := ?p in _) => destruct p
      | |- sticky (match ?x with _ => _ end) => destruct x
      end ].

Lemma sticky_fix (d : decimal) : sticky (fix_ d).
Proof. unfold fix_. repeat sticky_step. Qed.

Lemma sticky_normalize (d : decimal) : sticky (normalize d).
Proof.
  unfold normalize. destruct d; repeat first [ apply sticky_fix | sticky_step ].
Qed.

Lemma sticky_Decimal (x : pynum) : sticky (Decimal x).
Proof. destruct x; cbn [Decimal]; repeat sticky_step. Qed.

(** X3.  The presenter never clears a flag of the Decimal context: every
    flag set before the call is set after it, whether it returns or
    raises; and with a float rate and a voltage scale other than zero it
    leaves the FloatOperation flag set. *)
Theorem presenter_flags (h : Header) (ctx : context) :
  keeps_flags ctx (snd (format_header_info h ctx)) /\
  (forall r,
     sample_rate h = PyFloat r -> is_zero (voltage_scale h) = false ->
     flags (snd (format_header_info h ctx)) FloatOperation = true).
Proof.
  split.
  - revert ctx. change (sticky (format_header_info h)).
    unfold format_header_info.
    repeat first [ apply sticky_Decimal | apply sticky_normalize | sticky_step ].
  - intros r Hr Hz.
    pose proof (voltage_units_raise h) as Hv. rewrite Hz in Hv.
    destruct Hv as [u Hu].
    unfold format_header_info. rewrite Hu, Hr.
    rewrite (mbind_ok _ _ ctx ctx u) by reflexivity.
    rewrite (mbind_ok _ _ ctx (set_flag FloatOperation ctx) (from_float r))
      by reflexivity.
    match goal with
    | |- flags (snd (?k ?c)) _ = true =>
        assert (Hk : sticky k)
          by repeat first
               [ apply sticky_Decimal | apply sticky_normalize | sticky_step ];
        apply (Hk c)
    end.
    apply set_flag_set.
Qed.

Lemma presenter_flags_witness :
  sample_rate Examples.header_1k_float = PyFloat 1000 /\
  is_zero (voltage_scale Examples.header_1k_float) = false /\
  flags (snd (format_header_info Examples.header_1k_float fresh_context))
        FloatOperation = true.
Proof.
  split; [reflexivity |]. split; [reflexivity |].
  apply (proj2 (presenter_flags Examples.header_1k_float fresh_context)
               1000%float); reflexivity.
Defined.

End ContextFlags.

(** ** The table at its edges *)

Module TableEdges.
Import Py Dlogcsv PyFacts Table.
#[local] Open Scope py_scope.

(** *** A rate of zero, and no samples *)

Lemma truediv_zero_by_zero (x : pynum) :
  is_zero x = true -> truediv (PyInt 0) x = Raise ZeroDivisionError.
Proof.
  destruct x as [z | f]; cbn [is_zero truediv]; intros Hz.
  - unfold int_true_divide. now rewrite Hz.
  - change (float_of_int 0) with (Ok 0%float). cbn [bind].
    unfold float_div. now rewrite Hz.
Qed.

(** X4.  Without samples the table part of [main] returns and writes the
    requested header rows only, whatever the header.  With a rate of zero
    and at least one sample it writes the same rows and then raises
    ZeroDivisionError: the header rows stay on stdout, no data row
    follows. *)
Theorem table_without_rows (h : Header) (args : Args) (w : world) :
  main_table args h [] w
  = (Ok tt,
     {| dctx := dctx w; stderr := stderr w;
        csv_out := csv_out w
                   ++ optional_row (negb (no_csv_log_header args)) (log_header h)
                   ++ optional_row (negb (no_csv_column_header args))
                                   (column_header h) |}) /\
  (is_zero (sample_rate h) = true ->
   forall s rest,
     main_table args h (s :: rest) w
     = (Raise ZeroDivisionError, snd (main_table args h [] w))).
Proof.
  rewrite !main_table_spec. cbn [timestamped_data enumerate enumerate_from map
                                 produced outcome snd].
  rewrite !app_nil_r. split; [reflexivity |].
  intros Hz s rest. rewrite main_table_spec.
  assert (Hfirst : timestamped_row h 0 s = Raise ZeroDivisionError).
  { unfold timestamped_row. cbn [Z.of_nat].
    now rewrite (truediv_zero_by_zero _ Hz). }
  unfold timestamped_data, enumerate. cbn [enumerate_from map].
  rewrite Hfirst. cbn [produced outcome].
  now rewrite !app_nil_r.
Qed.

Lemma table_without_rows_witness :
  is_zero (sample_rate Examples.header_zero_rate) = true /\
  main_table Examples.all_rows Examples.header_zero_rate Examples.samples_2
             initial_world
  = (Raise ZeroDivisionError,
     snd (main_table Examples.all_rows Examples.header_zero_rate []
                     initial_world)).
Proof.
  split; [reflexivity |].
  apply (proj2 (table_without_rows Examples.header_zero_rate
                  Examples.all_rows initial_world)).
  reflexivity.
Defined.

(** *** The first time is zero *)

Lemma float_zero_div (g : float) :
  (0 <? g)%float = true -> (0 / g)%float = 0%float.
Proof.
  intros Hg. rewrite ltb_spec in Hg.
  rewrite <- (SF2Prim_Prim2SF (0 / g)), div_spec.
  change (Prim2SF 0) with (S754_zero false) in *.
  destruct (Prim2SF g) as [s | s | | s m e]; try destruct s;
    try discriminate Hg; reflexivity.
Qed.

Lemma truediv_zero_by_positive (x : pynum) :
  is_positive x = true -> truediv (PyInt 0) x = Ok 0%float.
Proof.
  destruct x as [z | f]; cbn [is_positive truediv]; intros Hpos.
  - apply Z.ltb_lt in Hpos. unfold int_true_divide.
    destruct (Z.eqb_spec z 0) as [-> | _]; [lia |].
    destruct (Z.ltb_spec z 0) as [Hneg | _]; [lia |]. reflexivity.
  - change (float_of_int 0) with (Ok 0%float). cbn [bind].
    rewrite (float_div_pos _ _ Hpos). now rewrite (float_zero_div _ Hpos).
Qed.

(** X5.  With a rate above zero the time of the first row is exactly 0.0,
    whether the rate is an int or a float. *)
Theorem first_time_is_zero (h : Header) (s : Sample) (rest : list Sample) :
  is_positive (sample_rate h) = true ->
  hd_error (timestamped_data h (s :: rest))
  = Some (Ok (VNum (PyFloat 0) :: map VNum (channel s))).
Proof.
  intros Hpos. unfold timestamped_data, enumerate. cbn [enumerate_from map hd_error].
  unfold timestamped_row. cbn [Z.of_nat].
  now rewrite (truediv_zero_by_positive _ Hpos).
Qed.

Lemma first_time_is_zero_witness :
  is_positive (sample_rate Examples.header_1k_float) = true /\
  hd_error (timestamped_data Examples.header_1k_float
                             (Examples.short_sample :: Examples.samples_2))
  = Some (Ok (VNum (PyFloat 0) :: map VNum (channel Examples.short_sample))).
Proof.
  split; [reflexivity |].
  apply (first_time_is_zero Examples.header_1k_float). reflexivity.
Defined.

(** *** Rows are produced one after the other *)

Lemma enumerate_from_app {A : Type} (l1 l2 : list A) :
  forall start,
    enumerate_from start (l1 ++ l2)
    = (enumerate_from start l1 ++ enumerate_from (start + length l1) l2)%list.
Proof.
  induction l1 as [| x l1 IH]; intros start; cbn.
  - now rewrite Nat.add_0_r.
  - rewrite IH. now rewrite Nat.add_succ_r.
Qed.

(** X6.  The rows of a log that goes on are those of its beginning,
    followed by the rows of the rest with the indices carried on: row [i]
    depends on sample [i] and on [i] only, not on the samples that follow
    nor on their number. *)
Theorem timestamped_data_app (h : Header) (ss later : list Sample) :
  timestamped_data h (ss ++ later)
  = (timestamped_data h ss
     ++ map (fun '(i, s) => timestamped_row h i s)
            (enumerate_from (length ss) later))%list /\
  (forall i, (i < length ss)%nat ->
     nth_error (timestamped_data h (ss ++ later)) i
     = nth_error (timestamped_data h ss) i) /\
  (forall i s, nth_error later i = Some s ->
     nth_error (timestamped_data h (ss ++ later)) (length ss + i)
     = Some (timestamped_row h (length ss + i) s)).
Proof.
  assert (Happ : timestamped_data h (ss ++ later)
                 = (timestamped_data h ss
                    ++ map (fun '(i, s) => timestamped_row h i s)
                           (enumerate_from (length ss) later))%list).
  { unfold timestamped_data, enumerate.
    now rewrite enumerate_from_app, map_app. }
  split; [exact Happ |]. split.
  - intros i Hi. rewrite Happ. apply nth_error_app1.
    now rewrite length_timestamped_data.
  - intros i s Hs. rewrite nth_error_timestamped_data.
    rewrite nth_error_app2 by lia.
    replace (length ss + i - length ss)%nat with i by lia.
    now rewrite Hs.
Qed.

Lemma timestamped_data_app_witness :
  nth_error Examples.samples_2 1 = Some {| channel := [PyInt 3; PyInt 4] |} /\
  nth_error (timestamped_data Examples.header_1k
               ([Examples.short_sample] ++ Examples.samples_2))
            (length [Examples.short_sample] + 1)
  = Some (timestamped_row Examples.header_1k
            (length [Examples.short_sample] + 1)
            {| channel := [PyInt 3; PyInt 4] |}).
Proof.
  split; [reflexivity |].
  apply (proj2 (proj2 (timestamped_data_app Examples.header_1k
                         [Examples.short_sample] Examples.samples_2))).
  reflexivity.
Defined.

(** *** A generator that fails *)

Lemma produced_app (d1 d2 : list (result row)) :
  produced (d1 ++ d2)
  = match outcome d1 with
    | Ok _ => (produced d1 ++ produced d2)%list
    | Raise _ => produced d1
    end.
Proof.
  induction d1 as [| [r | e] d1 IH]; cbn; [reflexivity | | reflexivity].
  rewrite IH. now destruct (outcome d1).
Qed.

Lemma outcome_app (d1 d2 : list (result row)) :
  outcome (d1 ++ d2)
  = match outcome d1 with
    | Ok _ => outcome d2
    | Raise e => Raise e
    end.
Proof. induction d1 as [| [r | e] d1 IH]; cbn; auto. Qed.

Lemma produced_map_Ok (rows : list row) :
  produced (map Ok rows) = rows /\ outcome (map Ok rows) = Ok tt.
Proof.
  induction rows as [| r rows [IHp IHo]]; cbn; [now split |].
  now rewrite IHp, IHo.
Qed.

(** X7.  [write_csv] writes the rows in the order it pulls them and stops
    at the first row that fails: the rows before it are on the sink, the
    exception is passed on, and what the generator would have given next
    plays no part.  Writing a sequence in one call is writing its two
    halves one after the other. *)
Theorem write_csv_stops_at_failure (rows : list row) (e : exn)
    (rest : list (result row)) (lh ch : option row) (w : world) :
  write_csv (map Ok rows ++ Raise e :: rest) lh ch w
  = (Raise e,
     {| dctx := dctx w; stderr := stderr w;
        csv_out := csv_out w
                   ++ match lh with Some r => [r] | None => [] end
                   ++ match ch with Some r => [r] | None => [] end
                   ++ rows |}) /\
  (forall d1 d2 : list (result row),
     writerows (d1 ++ d2) w = mbind (writerows d1) (fun _ => writerows d2) w).
Proof.
  split.
  - rewrite write_csv_spec, produced_app, outcome_app.
    destruct (produced_map_Ok rows) as [-> ->]. cbn [produced outcome].
    now rewrite app_nil_r.
  - intros d1 d2. unfold mbind.
    rewrite (writerows_spec (d1 ++ d2)), (writerows_spec d1).
    rewrite produced_app, outcome_app.
    destruct (outcome d1) as [[] | e1]; [| reflexivity].
    rewrite writerows_spec. cbn [dctx stderr csv_out].
    now rewrite app_assoc.
Qed.

(** *** Header and data columns *)

(** X8.  For a valid header and a sample with as many values as the
    header has channels, the data row has as many cells as the column
    header row: the columns line up. *)
Theorem row_matches_column_header (h : Header) (i : nat) (s : Sample) (r : row) :
  0 <= num_channels h <= Z.of_nat (length (channel_map h)) ->
  Z.of_nat (length (channel s)) = num_channels h ->
  timestamped_row h i s = Ok r ->
  length r = length (column_header h).
Proof.
  intros Hvalid Hlen Hr.
  unfold timestamped_row in Hr.
  destruct (truediv (PyInt (Z.of_nat i)) (sample_rate h)); [| discriminate Hr].
  cbn [bind] in Hr. injection Hr as <-.
  unfold column_header, active_channels. cbn [length].
  rewrite !length_map, slice_to_length by exact Hvalid. lia.
Qed.

Lemma row_matches_column_header_witness :
  0 <= num_channels Examples.header_1k
    <= Z.of_nat (length (channel_map Examples.header_1k)) /\
  Z.of_nat (length (channel {| channel := [PyInt 3; PyInt 4] |}))
    = num_channels Examples.header_1k /\
  timestamped_row Examples.header_1k 1 {| channel := [PyInt 3; PyInt 4] |}
    = Ok [VNum (PyFloat 0.001); VNum (PyInt 3); VNum (PyInt 4)] /\
  length [VNum (PyFloat 0.001); VNum (PyInt 3); VNum (PyInt 4)]
    = length (column_header Examples.header_1k).
Proof.
  split; [cbn; lia |]. split; [reflexivity |].
  assert (Hrow : timestamped_row Examples.header_1k 1
                   {| channel := [PyInt 3; PyInt 4] |}
                 = Ok [VNum (PyFloat 0.001); VNum (PyInt 3); VNum (PyInt 4)])
    by (vm_compute; reflexivity).
  split; [exact Hrow |].
  apply (row_matches_column_header Examples.header_1k 1
           {| channel := [PyInt 3; PyInt 4] |});
    [cbn; lia | reflexivity | exact Hrow].
Defined.

(** X9.  Whatever [num_channels] is, the active channels are the first
    entries of the map, in order: [num_channels] of them when there are
    that many, all of them when it is larger, all but the last
    [-num_channels] when it is negative, none when that takes them all;
    and the column header row has one cell more. *)
Theorem active_channels_any_count (h : Header) :
  Z.of_nat (length (active_channels h))
  = (if num_channels h <? 0
     then Z.max 0 (Z.of_nat (length (channel_map h)) + num_channels h)
     else Z.min (num_channels h) (Z.of_nat (length (channel_map h)))) /\
  (exists dropped, channel_map h = (active_channels h ++ dropped)%list) /\
  length (column_header h) = S (length (active_channels h)).
Proof.
  unfold active_channels, slice_to. split; [| split].
  - destruct (Z.ltb_spec (num_channels h) 0); rewrite length_firstn; lia.
  - destruct (num_channels h <? 0); eexists; symmetry; apply firstn_skipn.
  - unfold column_header. cbn [length]. now rewrite length_map.
Qed.

(** *** Private attributes *)

Lemma prefix_underscore_field (f shown : string) :
  String.prefix "_" (f ++ "=" ++ shown) = String.prefix "_" f.
Proof.
  assert (Hempty : forall s, String.prefix "" s = true) by now intros [| b s].
  destruct f as [| a f]; [reflexivity |].
  cbn [append String.prefix].
  destruct (ascii_dec "_" a); [now rewrite !Hempty | reflexivity].
Qed.

Lemma filter_none {A : Type} (p : A -> bool) (l : list A) :
  (forall x, In x l -> p x = false) -> filter p l = [].
Proof.
  induction l as [| x l IH]; cbn; intros Hall; [reflexivity |].
  rewrite (Hall x) by now left. apply IH. intros y Hy. apply Hall. now right.
Qed.

(** X10.  No cell of the log header row starts with an underscore, so no
    private attribute shows in it.  When every attribute of the header is
    private the row is empty, and it is still written: the table then
    starts with a row without cells. *)
Theorem log_header_hides_private (h : Header) :
  (forall cell, In cell (log_header h) ->
     exists shown, cell = VStr shown /\ String.prefix "_" shown = false) /\
  ((forall f v, In (f, v) (vars h) -> is_public f = false) ->
   log_header h = [] /\
   forall q c ss,
     table_rows {| quiet := q; no_csv_log_header := false;
                   no_csv_column_header := c |} h ss
     = [] :: table_rows {| quiet := q; no_csv_log_header := true;
                           no_csv_column_header := c |} h ss).
Proof.
  split.
  - intros cell Hin. rewrite log_header_shape in Hin.
    apply in_map_iff in Hin as [[f v] [<- Hin]].
    apply public_vars_In in Hin as [_ Hpub].
    exists (f ++ "=" ++ py_str v). split; [reflexivity |].
    rewrite prefix_underscore_field.
    unfold is_public in Hpub. now apply negb_true_iff in Hpub.
  - intros Hpriv.
    assert (Hempty : log_header h = []).
    { unfold log_header. rewrite filter_none; [reflexivity |].
      intros [f v] Hin. exact (Hpriv f v Hin). }
    split; [exact Hempty |].
    intros q c ss. unfold table_rows. rewrite !main_table_spec.
    cbn [snd csv_out initial_world no_csv_log_header no_csv_column_header
         negb optional_row app].
    now rewrite Hempty.
Qed.

Lemma log_header_hides_private_witness :
  (forall f v, In (f, v) (vars Examples.header_private) -> is_public f = false) /\
  log_header Examples.header_private = [] /\
  forall q c ss,
    table_rows {| quiet := q; no_csv_log_header := false;
                  no_csv_column_header := c |} Examples.header_private ss
    = [] :: table_rows {| quiet := q; no_csv_log_header := true;
                          no_csv_column_header := c |} Examples.header_private ss.
Proof.
  assert (Hpriv : forall f v, In (f, v) (vars Examples.header_private) ->
                              is_public f = false).
  { cbn. intros f v H.
    repeat (destruct H as [H | H]; [injection H as <- <-; reflexivity |]).
    contradiction. }
  split; [exact Hpriv |].
  exact (proj2 (log_header_hides_private Examples.header_private) Hpriv).
Defined.

End TableEdges.

(** ** A run of [main] *)

Module MainRun.
Import Py Decimal Dlogcsv PyFacts Table MonadFacts DecimalFacts Presenter
       PresenterErrors.
#[local] Open Scope py_scope.

(** The summary part of [main], when the presenter returns [info]. *)
Lemma main_summary_ok (args : Args) (h : Header) (w : world)
    (info : list string) (c : context) :
  quiet args = false ->
  format_header_info h (dctx w) = (Ok info, c) ->
  main_summary args h w
  = (Ok tt, {| dctx := c; stderr := stderr w ++ summary_text info;
               csv_out := csv_out w |}).
Proof.
  intros Hq Hrun.
  unfold main_summary. rewrite Hq. cbn [negb].
  unfold mbind, with_dctx. rewrite Hrun. reflexivity.
Qed.

(** X11.  On a log whose header is presentable and whose rate is above
    zero, [main] returns: stderr holds the banner and the eight items, one
    per line, unless [--quiet] is given, and stdout holds the requested
    header rows followed by one row per sample. *)
Theorem main_converts (args : Args) (dlog : Dlog) :
  presentable (header dlog) ->
  is_positive (sample_rate (header dlog)) = true ->
  Z.of_nat (length (samples dlog)) <= float_overflow_bound ->
  exists info,
    fst (format_header_info (header dlog) fresh_context) = Ok info /\
    fst (main args dlog initial_world) = Ok tt /\
    stderr (snd (main args dlog initial_world))
      = (if quiet args then "" else summary_text info) /\
    csv_out (snd (main args dlog initial_world))
      = table_rows args (header dlog) (samples dlog) /\
    length (table_rows args (header dlog) (samples dlog))
      = ((if no_csv_log_header args then 0 else 1)
         + (if no_csv_column_header args then 0 else 1)
         + length (samples dlog))%nat.
Proof.
  intros Hp Hpos Hlen.
  destruct (format_header_info_returns _ Hp fresh_context) as [info Hinfo].
  exists info. split; [exact Hinfo |].
  destruct (produced_all_ok _ (timestamped_data_all_ok _ _ Hpos Hlen))
    as [Hall Hend].
  assert (Hcount : length (produced (timestamped_data (header dlog) (samples dlog)))
                   = length (samples dlog)).
  { pose proof (f_equal (@length _) Hall) as Hl.
    rewrite length_map, length_timestamped_data in Hl. now symmetry. }
  assert (Hrows : length (table_rows args (header dlog) (samples dlog))
      = ((if no_csv_log_header args then 0 else 1)
         + (if no_csv_column_header args then 0 else 1)
         + length (samples dlog))%nat).
  { unfold table_rows. rewrite main_table_spec. cbn [snd csv_out initial_world app].
    rewrite !length_app, Hcount.
    now destruct (no_csv_log_header args), (no_csv_column_header args). }
  cut (fst (main args dlog initial_world) = Ok tt /\
       stderr (snd (main args dlog initial_world))
         = (if quiet args then "" else summary_text info) /\
       csv_out (snd (main args dlog initial_world))
         = table_rows args (header dlog) (samples dlog));
    [tauto |].
  clear Hrows. unfold table_rows.
  destruct (quiet args) eqn:Hq.
  - rewrite (main_quiet args dlog initial_world Hq), main_table_spec.
    cbn [fst snd stderr csv_out]. now rewrite Hend.
  - destruct (format_header_info (header dlog) fresh_context) as [r c] eqn:Hrun.
    cbn [fst] in Hinfo. subst r.
    unfold main, mbind.
    rewrite (main_summary_ok args (header dlog) initial_world info c Hq Hrun).
    rewrite !main_table_spec.
    cbn [fst snd stderr csv_out initial_world dctx]. now rewrite Hend.
Qed.

Lemma main_converts_witness :
  presentable Examples.header_1k /\
  is_positive (sample_rate Examples.header_1k) = true /\
  Z.of_nat (length Examples.samples_2) <= float_overflow_bound /\
  exists info,
    fst (format_header_info Examples.header_1k fresh_context) = Ok info /\
    fst (main Examples.default_args
              {| header := Examples.header_1k; samples := Examples.samples_2 |}
              initial_world) = Ok tt.
Proof.
  split; [exact presentable_sample_log |]. split; [reflexivity |].
  split; [vm_compute; discriminate |].
  destruct (main_converts Examples.default_args
              {| header := Examples.header_1k; samples := Examples.samples_2 |}
              presentable_sample_log eq_refl)
    as (info & Hinfo & Hmain & _).
  - vm_compute; discriminate.
  - exists info. now split.
Defined.

(** X12.  With a voltage scale of zero [main] raises ZeroDivisionError
    before anything is written, on stderr as on stdout, and leaves the
    Decimal context as it was; under [--quiet] the presenter is not
    called and the same log is converted as any other. *)
Theorem main_zero_voltage_scale (args : Args) (dlog : Dlog) (w : world) :
  is_zero (voltage_scale (header dlog)) = true ->
  (quiet args = false -> main args dlog w = (Raise ZeroDivisionError, w)) /\
  (quiet args = true ->
   main args dlog w = main_table args (header dlog) (samples dlog) w).
Proof.
  intros Hz. split; intros Hq; [| now apply main_quiet].
  unfold main, main_summary. rewrite Hq. cbn [negb].
  unfold mbind, with_dctx.
  rewrite (presenter_raise_zero _ _ Hz). now destruct w.
Qed.

Lemma main_zero_voltage_scale_witness :
  is_zero (voltage_scale Examples.header_zero_scale) = true /\
  quiet Examples.default_args = false /\
  main Examples.default_args
       {| header := Examples.header_zero_scale; samples := Examples.samples_2 |}
       initial_world
  = (Raise ZeroDivisionError, initial_world).
Proof.
  split; [reflexivity |]. split; [reflexivity |].
  apply (proj1 (main_zero_voltage_scale Examples.default_args
                  {| header := Examples.header_zero_scale;
                     samples := Examples.samples_2 |}
                  initial_world eq_refl)).
  reflexivity.
Defined.

End MainRun.

(** ** A delay below zero *)

Module NegativeDelay.
Import Py Decimal Dlogcsv PyFacts MonadFacts DecimalFacts Presenter PresenterErrors.
#[local] Open Scope py_scope.

(** [normalize] treats the sign as a label: the digits and the exponent of
    its result, or its exception, are the same for both signs. *)
Lemma normalize_sign (c : N) (e : Z) :
  exists r : result (N * Z), forall (s : bool) (ctx : context),
    fst (normalize (Finite s c e) ctx)
    = result_map (fun p => Finite s (fst p) (snd p)) r.
Proof.
  exists (result_map (fun d => match d with
                               | Finite _ c' e' => (c', e')
                               | _ => (0%N, 0)
                               end)
                     (fst (normalize (Finite false c e) fresh_context))).
  intros s ctx.
  rewrite (oblivious_normalize (Finite s c e) ctx fresh_context).
  unfold normalize, fix_, overflow, raise_error, when, mbind, modify, ret, raise.
  cbv zeta.
  repeat match goal with
    | |- context [if ?b then _ else _] => destruct b
    | |- context [let '(_, _) := ?p in _] => destruct p
    end; reflexivity.
Qed.

Lemma normalize_infinity (s : bool) (ctx : context) :
  fst (normalize (Infinity s) ctx) = Ok (Infinity s).
Proof. reflexivity. Qed.

(** The decimal of a number above zero, and of its opposite. *)
Lemma exact_positive (x : pynum) :
  is_positive x = true ->
  (exists c e, exact x = Finite false c e /\ exact (py_neg x) = Finite true c e)
  \/ (exact x = Infinity false /\ exact (py_neg x) = Infinity true).
Proof.
  destruct x as [z | f]; cbn [is_positive exact py_neg]; intros Hpos.
  - left. exists (Z.abs_N z), 0. unfold from_int.
    destruct z; try discriminate Hpos. split; reflexivity.
  - unfold from_float. rewrite opp_spec.
    rewrite ltb_spec in Hpos. change (Prim2SF 0) with (S754_zero false) in Hpos.
    destruct (Prim2SF f) as [s | s | | s m e]; try discriminate Hpos;
      destruct s; try discriminate Hpos; cbn [SFopp negb].
    + now right.
    + left. destruct (0 <=? e).
      * eexists _, _. split; reflexivity.
      * destruct (reduce_ratio _ _ _) as [n k]. eexists _, _. split; reflexivity.
Qed.

(** X13. The delay may be negative: the presenter shows the opposite of a
    delay above zero as that delay with a minus sign in front, and changes
    nothing else, neither in the list nor in the exception. *)
Theorem negative_delay (h : Header) (ctx : context) :
  is_positive (delay h) = true ->
  match fst (format_header_info h ctx) with
  | Ok info =>
      exists unit_shown rate_shown delay_shown,
        info = info_list h unit_shown rate_shown delay_shown /\
        fst (format_header_info (with_delay (py_neg (delay h)) h) ctx)
        = Ok (info_list h unit_shown rate_shown ("-" ++ delay_shown))
  | Raise e =>
      fst (format_header_info (with_delay (py_neg (delay h)) h) ctx) = Raise e
  end.
Proof.
  intros Hpos. rewrite !presenter_result.
  change (voltage_units (with_delay (py_neg (delay h)) h)) with (voltage_units h).
  cbn [sample_rate delay with_delay].
  destruct (voltage_units h) as [u | err]; cbn [bind]; [| reflexivity].
  destruct (fst (normalize (exact (sample_rate h)) fresh_context)) as [rate | err];
    cbn [bind]; [| reflexivity].
  destruct (exact_positive _ Hpos) as [(c & e & -> & ->) | [-> ->]].
  - destruct (normalize_sign c e) as [r Hr]. rewrite !Hr.
    destruct r as [[c' e'] | err]; cbn [result_map bind fst snd]; [| reflexivity].
    exists (py_str u), (to_eng_string rate), (to_eng_string (Finite false c' e')).
    split; reflexivity.
  - rewrite !normalize_infinity. cbn [bind].
    exists (py_str u), (to_eng_string rate), "Infinity". split; reflexivity.
Qed.

Lemma negative_delay_witness :
  is_positive (delay Examples.header_1k) = true /\
  Examples.header_early
  = with_delay (py_neg (delay Examples.header_1k)) Examples.header_1k /\
  match fst (format_header_info Examples.header_1k fresh_context) with
  | Ok info =>
      exists unit_shown rate_shown delay_shown,
        info = info_list Examples.header_1k unit_shown rate_shown delay_shown /\
        fst (format_header_info Examples.header_early fresh_context)
        = Ok (info_list Examples.header_1k unit_shown rate_shown
                        ("-" ++ delay_shown))
  | Raise e =>
      fst (format_header_info Examples.header_early fresh_context) = Raise e
  end.
Proof.
  split; [reflexivity |]. split; [reflexivity |].
  apply (negative_delay Examples.header_1k fresh_context). reflexivity.
Defined.
End NegativeDelay.
